(** * XiaoWeather: the node runtime of the desk weather station

    A shallow embedding of [src/XiaoWeather/src/main.cpp] and the
    properties of its runtime loop, discovery protocol and state payload.

    Conventions of the embedding.
    - [float] variables are IEEE-754 binary32 values, [double] expressions
      binary64 values, both as [spec_float] with the operations of
      [SpecFloat] at the matching precision.
    - [unsigned long] is a 32-bit counter: subtraction wraps modulo 2^32.
    - Every command sent to a collaborator (link, broker client, display,
      serial port, sleep) is an [Event] of the trace, in program order, and
      so is every reading of the clock and of the sensor.  What a
      collaborator answers is read from an environment record that has one
      field per call site.
    - The broker client keeps one bit of state, [session]: set by an accepted
      connect, cleared by [disconnect] and by a [connected()] check that
      finds the transport gone.  It builds every packet in one buffer, of
      the size [setup] gives it, and refuses a publish whose packet does
      not fit: such a publish is an [EvRefused] of the trace, one that is
      sent an [EvPublish].
    - The libraries the sketch links against are not part of the repository;
      what the program needs of them (the C [round], the JSON writer, the
      broker client, [snprintf] into a fixed buffer) is modelled next to its
      first use. *)

From Stdlib Require Import ZArith List String Ascii Bool Lia.
From Stdlib Require Import SpecFloat DecimalString.
Import ListNotations.
Local Open Scope string_scope.
Local Open Scope Z_scope.

(** ** Floating point *)

Module F32.
Definition prec : Z := 24.
Definition emax : Z := 128.
Definition of_Z (z : Z) : spec_float := binary_normalize prec emax z 0 false.
Definition mul : spec_float -> spec_float -> spec_float := SFmul prec emax.
Definition div : spec_float -> spec_float -> spec_float := SFdiv prec emax.
(** The binary32 value nearest to the decimal [n / 10^k]. *)
Definition of_decimal (n : Z) (k : nat) : spec_float :=
  div (of_Z n) (of_Z (10 ^ Z.of_nat k)).
End F32.

Module F64.
Definition prec : Z := 53.
Definition emax : Z := 1024.
Definition of_Z (z : Z) : spec_float := binary_normalize prec emax z 0 false.
Definition div : spec_float -> spec_float -> spec_float := SFdiv prec emax.
(** Widening a binary32 value: exact, the mantissa is only re-aligned. *)
Definition of_float (x : spec_float) : spec_float :=
  match x with
  | S754_finite s m e => binary_round prec emax s m e
  | _ => x
  end.
End F64.

Definition isnan (x : spec_float) : bool :=
  match x with S754_nan => true | _ => false end.

(** [round] of the C library on a double: to the nearest integer, halfway
    cases away from zero; zeros, infinities and NaN are returned as they
    are, and a result of magnitude below one half keeps the sign as a zero. *)
Definition round (x : spec_float) : spec_float :=
  match x with
  | S754_finite s m e =>
      if 0 <=? e then x
      else
        let d := 2 ^ (- e) in
        let q := Z.pos m / d in
        let r := Z.pos m mod d in
        let n := if d <=? 2 * r then q + 1 else q in
        if n =? 0 then S754_zero s
        else binary_normalize F64.prec F64.emax (if s then - n else n) 0 s
  | _ => x
  end.

(** ** JSON documents and their text *)

#[warnings="-register-all"]
Inductive Json : Type :=
| JString (s : string)
| JFloat (d : spec_float)
| JArray (items : list Json)
| JObject (members : list (string * Json)).

(** [obj[key] = v]: replaces the member when the key exists, appends it
    otherwise. *)
Fixpoint set_member (key : string) (v : Json) (ms : list (string * Json))
  : list (string * Json) :=
  match ms with
  | [] => [(key, v)]
  | (k, w) :: rest =>
      if String.eqb k key then (k, v) :: rest
      else (k, w) :: set_member key v rest
  end.

Fixpoint get_member (key : string) (ms : list (string * Json)) : option Json :=
  match ms with
  | [] => None
  | (k, w) :: rest => if String.eqb k key then Some w else get_member key rest
  end.

Definition doc_set (key : string) (v : Json) (doc : Json) : Json :=
  match doc with
  | JObject ms => JObject (set_member key v ms)
  | _ => JObject [(key, v)]
  end.

Definition doc_get (key : string) (doc : Json) : option Json :=
  match doc with
  | JObject ms => get_member key ms
  | _ => None
  end.

(** Assignment through the reference obtained from
    [doc["device"].to<JsonObject>()]: the member lives inside [doc]. *)
Definition nested_set (outer key : string) (v : Json) (doc : Json) : Json :=
  match doc_get outer doc with
  | Some inner => doc_set outer (doc_set key v inner) doc
  | None => doc_set outer (doc_set key v (JObject [])) doc
  end.

Definition string_of_Z (z : Z) : string := NilZero.string_of_int (Z.to_int z).

Fixpoint zeros (n : nat) : string :=
  match n with O => EmptyString | S k => String "0" (zeros k) end.

(** A fraction of [places] digits, zero-padded on the left. *)
Definition writeDecimals (decimal : Z) (places : nat) : string :=
  let digits := string_of_Z decimal in
  "." ++ zeros (places - String.length digits) ++ digits.

(** Largest [p <= 7 + fuel] with [10^p * d <= n], searched upwards from 7. *)
Fixpoint exponent_up (fuel : nat) (n d p : Z) : Z :=
  match fuel with
  | O => p
  | S k => if 10 ^ (p + 1) * d <=? n then exponent_up k n d (p + 1) else p
  end.

(** Smallest [q] with [d <= 10^q * n], searched upwards. *)
Fixpoint exponent_down (fuel : nat) (n d q : Z) : Z :=
  match fuel with
  | O => q
  | S k => if d <=? 10 ^ q * n then q else exponent_down k n d (q + 1)
  end.

Fixpoint decimal_places (fuel : nat) (tmp : Z) (places : nat) : nat :=
  match fuel with
  | O => places
  | S k => if 10 <=? tmp then decimal_places k (tmp / 10) (places - 1) else places
  end.

Fixpoint strip_zeros (places : nat) (decimal : Z) : Z * nat :=
  match places with
  | O => (decimal, O)
  | S k => if decimal mod 10 =? 0 then strip_zeros k (decimal / 10)
           else (decimal, places)
  end.

(** The text of a positive number [n / d], the way the JSON library prints
    a double: exponent form from 1e7 upwards and from 1e-5 downwards, nine
    significant places shared between integral and fractional part, the
    fraction rounded half up and printed without trailing zeros.  The
    library does these steps in double arithmetic; here they are exact. *)
Definition writePositive (n d : Z) : string :=
  let p :=
    if 10 ^ 7 * d <=? n then exponent_up 400 n d 7
    else if 10 ^ 5 * n <=? d then - exponent_down 400 n d 5
    else 0 in
  let n' := if p <? 0 then n * 10 ^ (- p) else n in
  let d' := if 0 <? p then d * 10 ^ p else d in
  let integral := n' / d' in
  let rest := n' mod d' in
  let places := decimal_places 10 integral 9 in
  let maxDecimalPart := 10 ^ Z.of_nat places in
  let decimal0 := (rest * maxDecimalPart) / d' in
  let rest2 := (rest * maxDecimalPart) mod d' in
  let decimal1 := if d' <=? 2 * rest2 then decimal0 + 1 else decimal0 in
  let carry := maxDecimalPart <=? decimal1 in
  let decimal2 := if carry then 0 else decimal1 in
  let integral1 := if carry then integral + 1 else integral in
  let bump := carry && negb (p =? 0) && (10 <=? integral1) in
  let integral2 := if bump then 1 else integral1 in
  let p' := if bump then p + 1 else p in
  let '(decimal, places') := strip_zeros places decimal2 in
  string_of_Z integral2
    ++ (match places' with O => EmptyString | S _ => writeDecimals decimal places' end)
    ++ (if p' =? 0 then EmptyString else "e" ++ string_of_Z p').

Definition writeFloat (x : spec_float) : string :=
  match x with
  | S754_nan => "null"
  | S754_infinity _ => "null"
  | S754_zero _ => "0"
  | S754_finite s m e =>
      (if s then "-" else EmptyString)
        ++ (if 0 <=? e then writePositive (Z.pos m * 2 ^ e) 1
            else writePositive (Z.pos m) (2 ^ (- e)))
  end.

Definition dquote : ascii := Ascii.ascii_of_nat 34.
Definition newline : string := String (Ascii.ascii_of_nat 10) EmptyString.
Definition tab : string := String (Ascii.ascii_of_nat 9) EmptyString.
(** The two bytes of the degree sign in UTF-8. *)
Definition degree : string :=
  String (Ascii.ascii_of_nat 194) (String (Ascii.ascii_of_nat 176) EmptyString).

Definition needs_escape (c : ascii) : bool :=
  (Ascii.eqb c dquote) || (Ascii.eqb c "\"%char).

Fixpoint writeChars (s : string) : string :=
  match s with
  | EmptyString => EmptyString
  | String c rest =>
      if needs_escape c then String "\" (String c (writeChars rest))
      else String c (writeChars rest)
  end.

Definition writeString (s : string) : string :=
  String dquote (writeChars s) ++ String dquote EmptyString.

Fixpoint writeJson (j : Json) : string :=
  match j with
  | JString s => writeString s
  | JFloat d => writeFloat d
  | JArray items =>
      "[" ++ (fix elems (l : list Json) : string :=
                match l with
                | [] => EmptyString
                | [x] => writeJson x
                | x :: rest => writeJson x ++ "," ++ elems rest
                end) items ++ "]"
  | JObject members =>
      "{" ++ (fix fields (l : list (string * Json)) : string :=
                match l with
                | [] => EmptyString
                | [(k, v)] => writeString k ++ ":" ++ writeJson v
                | (k, v) :: rest =>
                    writeString k ++ ":" ++ writeJson v ++ "," ++ fields rest
                end) members ++ "}"
  end.

Fixpoint take (n : nat) (s : string) : string :=
  match n, s with
  | S k, String c rest => String c (take k rest)
  | _, _ => EmptyString
  end.

(** [serializeJson(doc, buffer)] into a [char buffer[capacity]]: the text,
    cut to leave room for the terminator. *)
Definition serializeJson (doc : Json) (capacity : nat) : string :=
  take (capacity - 1) (writeJson doc).

(** [round(x * 10) / 10.0] for a [float x]: the product is a binary32
    multiplication, the quotient a binary64 division. *)
Definition tenths (x : spec_float) : spec_float :=
  F64.div (round (F64.of_float (F32.mul x (F32.of_Z 10)))) (F64.of_Z 10).


(** ** Collaborators *)

(** What [Print::print] and [Print::println] are given, on the serial port
    and on the display alike. *)
Inductive Item : Type :=
| Text (s : string)
| Float (x : spec_float) (digits : nat)
| Int (z : Z)
| LocalIP.

Inductive DisplayOp : Type :=
| DBegin
| DSetRotation (r : Z)
| DDisplay
| DClearDisplay
| DSetTextSize (n : Z)
| DSetTextColor
| DSetCursor (x y : Z)
| DCp437 (on : bool)
| DPrint (it : Item)
| DPrintln (it : Item).

Inductive wl_status : Type :=
| WL_IDLE_STATUS | WL_NO_SSID_AVAIL | WL_SCAN_COMPLETED | WL_CONNECTED
| WL_CONNECT_FAILED | WL_CONNECTION_LOST | WL_DISCONNECTED | WL_NO_SHIELD.

Definition is_connected (st : wl_status) : bool :=
  match st with WL_CONNECTED => true | _ => false end.

Inductive Level : Type := LOW | HIGH.

Inductive PinMode : Type := OUTPUT | INPUT_PULLUP.

Inductive Channel : Type := Humidity | Temperature | Pressure.

(** The last-will of a connect request: topic, QoS, retain flag, message. *)
Record Will : Type := mkWill
  { willTopic : string; willQos : Z; willRetain : bool; willMessage : string }.

Inductive Event : Type :=
| EvSerialBegin (baud : Z)
| EvSerial (it : Item) (newline : bool)
| EvPinMode (pin : Z) (mode : PinMode)
| EvDisplay (op : DisplayOp)
| EvDelay (ms : Z)
| EvMillis (t : Z)
| EvRead (ch : Channel) (v : spec_float)
| EvSetSampling
| EvWifiMode
| EvWifiBegin (ssid password : string)
| EvWifiDisconnect
| EvSetServer (host : string) (port : Z)
| EvSetBufferSize (n : Z)
| EvConnect (id user password : string) (will : option Will) (code : Z)
| EvPublish (topic payload : string) (retained : bool)
| EvRefused (topic payload : string) (retained : bool)
| EvDisconnect
| EvPump
| EvSessionLost
| EvRestart.

(** ** Configuration and constants *)

Definition WIFI_SSID := "YushNet Lux 2.4G".
Definition WIFI_PASSWORD := "1337x@Ayush6901".
Definition MQTT_SERVER := "192.168.8.195".
Definition MQTT_PORT : Z := 1883.
Definition MQTT_USER := "ayush.chinmay".
Definition MQTT_PASSWORD := "1337x@#Ayush6901".
Definition DEVICE_NAME := "pc_xiaoc3_weather".
Definition DEVICE_FRIENDLY_NAME := "Desktop Station Weather".

Definition LED_PIN : Z := 10.
Definition BOOT_BTN : Z := 9.

Definition MQTT_DISCOVERY_PREFIX := "homeassistant".
Definition MQTT_STATE_TOPIC := "pc_xiaoc3_weather/state".
Definition MQTT_AVAILABILITY_TOPIC := "pc_xiaoc3_weather/availability".

Definition oledDelay : Z := 2000.
Definition bmeDelay : Z := 41.
Definition mqttDelay : Z := 10000.
Definition wifiReconnectDelay : Z := 30000.

(** [unsigned long] on the target is 32 bits wide. *)
Definition wB : Z := 2 ^ 32.
Definition wrap (z : Z) : Z := z mod wB.
Definition usub (a b : Z) : Z := wrap (a - b).

(** ** Program state *)

Record State : Type := mkState
  { humid : spec_float;
    tempC : spec_float;
    pressure : spec_float;
    oledTime : Z;
    bmeTime : Z;
    mqttTime : Z;
    wifiReconnectTime : Z;
    mqttDiscoverySent : bool;
    mqttResetRequested : bool;
    (** the broker client object: is a session established *)
    session : bool }.

(** Globals as the C++ runtime initialises them. *)
Definition boot_state : State :=
  {| humid := S754_zero false; tempC := S754_zero false;
     pressure := S754_zero false;
     oledTime := 0; bmeTime := 0; mqttTime := 0; wifiReconnectTime := 0;
     mqttDiscoverySent := false; mqttResetRequested := false;
     session := false |}.

Definition set_reading (h t p : spec_float) (s : State) : State :=
  mkState h t p (oledTime s) (bmeTime s) (mqttTime s) (wifiReconnectTime s)
          (mqttDiscoverySent s) (mqttResetRequested s) (session s).
Definition set_humid (h : spec_float) (s : State) : State :=
  set_reading h (tempC s) (pressure s) s.
Definition set_tempC (t : spec_float) (s : State) : State :=
  set_reading (humid s) t (pressure s) s.
Definition set_pressure (p : spec_float) (s : State) : State :=
  set_reading (humid s) (tempC s) p s.
Definition set_oledTime (t : Z) (s : State) : State :=
  mkState (humid s) (tempC s) (pressure s) t (bmeTime s) (mqttTime s)
          (wifiReconnectTime s) (mqttDiscoverySent s) (mqttResetRequested s)
          (session s).
Definition set_bmeTime (t : Z) (s : State) : State :=
  mkState (humid s) (tempC s) (pressure s) (oledTime s) t (mqttTime s)
          (wifiReconnectTime s) (mqttDiscoverySent s) (mqttResetRequested s)
          (session s).
Definition set_mqttTime (t : Z) (s : State) : State :=
  mkState (humid s) (tempC s) (pressure s) (oledTime s) (bmeTime s) t
          (wifiReconnectTime s) (mqttDiscoverySent s) (mqttResetRequested s)
          (session s).
Definition set_wifiReconnectTime (t : Z) (s : State) : State :=
  mkState (humid s) (tempC s) (pressure s) (oledTime s) (bmeTime s) (mqttTime s)
          t (mqttDiscoverySent s) (mqttResetRequested s) (session s).
Definition set_mqttDiscoverySent (b : bool) (s : State) : State :=
  mkState (humid s) (tempC s) (pressure s) (oledTime s) (bmeTime s) (mqttTime s)
          (wifiReconnectTime s) b (mqttResetRequested s) (session s).
Definition set_mqttResetRequested (b : bool) (s : State) : State :=
  mkState (humid s) (tempC s) (pressure s) (oledTime s) (bmeTime s) (mqttTime s)
          (wifiReconnectTime s) (mqttDiscoverySent s) b (session s).
Definition set_session (b : bool) (s : State) : State :=
  mkState (humid s) (tempC s) (pressure s) (oledTime s) (bmeTime s) (mqttTime s)
          (wifiReconnectTime s) (mqttDiscoverySent s) (mqttResetRequested s) b.

(** ** The effect monad: state passing with a trace *)

Definition M (A : Type) : Type := State -> A * State * list Event.

Definition value {A} (r : A * State * list Event) : A := fst (fst r).
Definition state {A} (r : A * State * list Event) : State := snd (fst r).
Definition trace {A} (r : A * State * list Event) : list Event := snd r.

Definition ret {A} (a : A) : M A := fun s => (a, s, []).

Definition bind {A B} (m : M A) (k : A -> M B) : M B :=
  fun s =>
    let r1 := m s in
    let r2 := k (value r1) (state r1) in
    (value r2, state r2, (trace r1 ++ trace r2)%list).

Declare Scope monad_scope.
Delimit Scope monad_scope with monad.
Notation "x <- m ;; k" := (bind m (fun x => k))
  (at level 61, m at next level, right associativity) : monad_scope.
Notation "m ;; k" := (bind m (fun _ => k))
  (at level 61, right associativity) : monad_scope.
Local Open Scope monad_scope.

Definition get : M State := fun s => (s, s, []).
Definition modify (f : State -> State) : M unit := fun s => (tt, f s, []).
Definition emit (ev : Event) : M unit := fun s => (tt, s, [ev]).

Definition serial_print (it : Item) : M unit := emit (EvSerial it false).
Definition serial_println (it : Item) : M unit := emit (EvSerial it true).
Definition display (op : DisplayOp) : M unit := emit (EvDisplay op).
Definition delay (ms : Z) : M unit := emit (EvDelay ms).

(** [millis()]: the environment's counter, as an [unsigned long]. *)
Definition millis (t : Z) : M Z := fun s => (wrap t, s, [EvMillis (wrap t)]).

(** *** The broker client *)

(** [connected()]: true while a session is established and the transport
    is still alive; a dead transport ends the session. *)
Definition mqtt_connected (alive : bool) : M bool :=
  fun s =>
    let c := session s && alive in
    (c, set_session c s,
     if session s && negb alive then [EvSessionLost] else []).

(** [connect(...)]: [code] is the client state the attempt ends in, zero
    (MQTT_CONNECTED) when the broker accepts. *)
Definition mqtt_connect (id user password : string) (will : option Will)
    (code : Z) : M bool :=
  fun s => (code =? 0, set_session (code =? 0) s,
            [EvConnect id user password will code]).

(** The client builds a publish packet in its buffer: at most
    [MQTT_MAX_HEADER_SIZE] bytes of fixed header, two bytes of topic
    length, the topic and the payload, both measured by [strnlen] up to
    the size of the buffer.  [setup] sizes the buffer once,
    [setBufferSize(512)], before the first publish of the program, and
    nothing resizes it afterwards (theorem [buffer_sized_before_use]):
    every publish meets a buffer of [MQTT_BUFFER] bytes. *)
Definition MQTT_MAX_HEADER_SIZE : Z := 5.
Definition MQTT_BUFFER : Z := 512.

Definition packet_size (topic payload : string) : Z :=
  MQTT_MAX_HEADER_SIZE + 2
  + Z.min (Z.of_nat (String.length topic)) MQTT_BUFFER
  + Z.min (Z.of_nat (String.length payload)) MQTT_BUFFER.

Definition too_large (topic payload : string) : bool :=
  MQTT_BUFFER <? packet_size topic payload.

(** [publish(topic, payload, retained)].  The client asks [connected()]
    itself before it writes; the transport is taken not to change between
    two answers of the environment, so this test reads the session bit the
    last answer left.  Without a session nothing happens.  On a session a
    packet that fits the buffer is written to the transport, and the write
    is taken to succeed, [EvPublish]; one that does not fit is refused and
    nothing reaches the broker, [EvRefused].  The result tells the caller
    which; the sketch never looks at it. *)
Definition mqtt_publish (topic payload : string) (retained : bool) : M bool :=
  fun s =>
    if session s then
      (negb (too_large topic payload), s,
       [if too_large topic payload then EvRefused topic payload retained
        else EvPublish topic payload retained])
    else (false, s, []).

Definition mqtt_disconnect : M unit :=
  fun s => (tt, set_session false s, [EvDisconnect]).

(** [loop()]: the protocol pump, which runs only on a live session. *)
Definition mqtt_loop (alive : bool) : M bool :=
  c <- mqtt_connected alive;;
  if c then emit EvPump;; ret true else ret false.

(** ** Environments *)

(** Answers of the collaborators during one iteration of [loop], one field
    per call site. *)
Record LoopEnv : Type := mkLoopEnv
  { status_checkWiFi : wl_status;
    millis_wifi_test : Z;
    millis_wifi_set : Z;
    status_loop : wl_status;
    alive_loop : bool;
    alive_reconnect : bool;
    status_reconnect : wl_status;
    connect_code : Z;
    alive_pump : bool;
    millis_bme_test : Z;
    millis_bme_set : Z;
    readHumidity : spec_float;
    readTemperature : spec_float;
    readPressure : spec_float;
    millis_oled_test : Z;
    millis_oled_set : Z;
    millis_mqtt_test : Z;
    millis_mqtt_set : Z;
    alive_publish : bool }.

(** Answers of the collaborators during [setup]. *)
Record BootEnv : Type := mkBootEnv
  { button : Level;
    display_begin : bool;
    bme_begin : bool;
    status_poll : nat -> wl_status;
    status_setupWiFi : wl_status;
    status_reset : wl_status;
    reset_connect_code : Z;
    status_banner : wl_status }.

(** ** WiFi functions *)

(** The polling loop of [setupWiFi]: [attempts] polls done, [remaining]
    more allowed, so that [attempts < 20] is [0 < remaining]. *)
Fixpoint wifi_wait (poll : nat -> wl_status) (remaining attempts : nat)
  : M unit :=
  if is_connected (poll attempts) then ret tt
  else match remaining with
       | O => ret tt
       | S r =>
           delay 500;;
           serial_print (Text ".");;
           wifi_wait poll r (S attempts)
       end.

Definition setupWiFi (b : BootEnv) : M unit :=
  serial_print (Text "Connecting to WiFi");;
  emit EvWifiMode;;
  emit (EvWifiBegin WIFI_SSID WIFI_PASSWORD);;
  wifi_wait (status_poll b) 20 0;;
  if is_connected (status_setupWiFi b) then
    serial_println (Text (newline ++ "WiFi connected!"));;
    serial_print (Text "IP address: ");;
    serial_println LocalIP
  else
    serial_println
      (Text (newline ++ "WiFi connection failed - will retry later")).

Definition checkWiFi (e : LoopEnv) : M unit :=
  if negb (is_connected (status_checkWiFi e)) then
    now <- millis (millis_wifi_test e);;
    s <- get;;
    if wifiReconnectDelay <=? usub now (wifiReconnectTime s) then
      t <- millis (millis_wifi_set e);;
      modify (set_wifiReconnectTime t);;
      serial_println (Text "WiFi disconnected, attempting reconnection...");;
      emit EvWifiDisconnect;;
      emit (EvWifiBegin WIFI_SSID WIFI_PASSWORD)
    else ret tt
  else ret tt.

(** ** MQTT functions *)

Notation "x |> f" := (f x) (at level 62, left associativity, only parsing).

(** [snprintf(topic, sizeof(topic), "%s/sensor/%s/<key>/config", ...)] into
    a [char topic[128]]. *)
Definition config_topic (key : string) : string :=
  take 127 (MQTT_DISCOVERY_PREFIX ++ "/sensor/" ++ DEVICE_NAME ++ "/" ++ key
              ++ "/config").

Definition resetMQTT : M unit :=
  serial_println (Text "Resetting MQTT - clearing all retained messages...");;
  mqtt_publish (config_topic "temperature") EmptyString true;;
  mqtt_publish (config_topic "humidity") EmptyString true;;
  mqtt_publish (config_topic "pressure") EmptyString true;;
  mqtt_publish (config_topic "temperature_f") EmptyString true;;
  mqtt_publish (config_topic "pressure_bar") EmptyString true;;
  mqtt_publish (config_topic "altitude") EmptyString true;;
  mqtt_publish MQTT_STATE_TOPIC EmptyString true;;
  mqtt_publish MQTT_AVAILABILITY_TOPIC EmptyString true;;
  delay 500;;
  serial_println
    (Text "MQTT reset complete - device removed from Home Assistant").

(** The three documents [publishDiscovery] builds, assignment by
    assignment. *)
Definition temperature_config : Json :=
  JObject []
  |> doc_set "device" (JObject [])
  |> nested_set "device" "identifiers" (JArray [JString DEVICE_NAME])
  |> nested_set "device" "name" (JString DEVICE_FRIENDLY_NAME)
  |> nested_set "device" "model" (JString "XIAO ESP32-C3 + BME280")
  |> nested_set "device" "manufacturer" (JString "Seeed Studio")
  |> doc_set "name" (JString "Temperature")
  |> doc_set "unique_id" (JString "xiao_weather_temperature")
  |> doc_set "state_topic" (JString MQTT_STATE_TOPIC)
  |> doc_set "availability_topic" (JString MQTT_AVAILABILITY_TOPIC)
  |> doc_set "payload_available" (JString "online")
  |> doc_set "payload_not_available" (JString "offline")
  |> doc_set "value_template" (JString "{{ value_json.temperature }}")
  |> doc_set "unit_of_measurement" (JString (degree ++ "C"))
  |> doc_set "device_class" (JString "temperature")
  |> doc_set "state_class" (JString "measurement").

Definition humidity_config : Json :=
  JObject []
  |> doc_set "device" (JObject [])
  |> nested_set "device" "identifiers" (JArray [JString DEVICE_NAME])
  |> nested_set "device" "name" (JString DEVICE_FRIENDLY_NAME)
  |> nested_set "device" "model" (JString "XIAO ESP32-C3 + BME280")
  |> nested_set "device" "manufacturer" (JString "Seeed Studio")
  |> doc_set "name" (JString "Humidity")
  |> doc_set "unique_id" (JString "xiao_weather_humidity")
  |> doc_set "state_topic" (JString MQTT_STATE_TOPIC)
  |> doc_set "availability_topic" (JString MQTT_AVAILABILITY_TOPIC)
  |> doc_set "payload_available" (JString "online")
  |> doc_set "payload_not_available" (JString "offline")
  |> doc_set "value_template" (JString "{{ value_json.humidity }}")
  |> doc_set "unit_of_measurement" (JString "%")
  |> doc_set "device_class" (JString "humidity")
  |> doc_set "state_class" (JString "measurement").

Definition pressure_config : Json :=
  JObject []
  |> doc_set "device" (JObject [])
  |> nested_set "device" "identifiers" (JArray [JString DEVICE_NAME])
  |> nested_set "device" "name" (JString DEVICE_FRIENDLY_NAME)
  |> nested_set "device" "model" (JString "XIAO ESP32-C3 + BME280")
  |> nested_set "device" "manufacturer" (JString "Seeed Studio")
  |> doc_set "name" (JString "Pressure")
  |> doc_set "unique_id" (JString "xiao_weather_pressure")
  |> doc_set "state_topic" (JString MQTT_STATE_TOPIC)
  |> doc_set "availability_topic" (JString MQTT_AVAILABILITY_TOPIC)
  |> doc_set "payload_available" (JString "online")
  |> doc_set "payload_not_available" (JString "offline")
  |> doc_set "value_template" (JString "{{ value_json.pressure }}")
  |> doc_set "unit_of_measurement" (JString "hPa")
  |> doc_set "device_class" (JString "pressure")
  |> doc_set "state_class" (JString "measurement").

Definition publishDiscovery : M unit :=
  s <- get;;
  if mqttDiscoverySent s then ret tt
  else
    mqtt_publish (config_topic "temperature")
                 (serializeJson temperature_config 512) true;;
    mqtt_publish (config_topic "humidity")
                 (serializeJson humidity_config 512) true;;
    mqtt_publish (config_topic "pressure")
                 (serializeJson pressure_config 512) true;;
    modify (set_mqttDiscoverySent true);;
    serial_println
      (Text "MQTT Discovery messages sent for temperature, humidity, and pressure sensors").

Definition last_will : Will :=
  {| willTopic := MQTT_AVAILABILITY_TOPIC; willQos := 0; willRetain := true;
     willMessage := "offline" |}.

(** The [switch] on the client state after a failed connect. *)
Definition explain_code (code : Z) : M unit :=
  match code with
  | -4 => serial_println (Text "  -> Connection timeout")
  | -2 => serial_println (Text "  -> Connection refused (check IP/port)")
  | 4 => serial_println (Text "  -> Bad credentials (check user/password)")
  | 5 => serial_println (Text "  -> Not authorized (check MQTT ACL)")
  | _ => ret tt
  end.

Definition mqttReconnect (e : LoopEnv) : M unit :=
  c <- mqtt_connected (alive_reconnect e);;
  if c then ret tt
  else if negb (is_connected (status_reconnect e)) then ret tt
  else
    serial_print (Text "Connecting to MQTT at ");;
    serial_print (Text MQTT_SERVER);;
    serial_print (Text ":");;
    serial_print (Int MQTT_PORT);;
    serial_print (Text " as ");;
    serial_print (Text MQTT_USER);;
    serial_print (Text "...");;
    ok <- mqtt_connect DEVICE_NAME MQTT_USER MQTT_PASSWORD (Some last_will)
                       (connect_code e);;
    if ok then
      serial_println (Text "connected!");;
      mqtt_publish MQTT_AVAILABILITY_TOPIC "online" true;;
      modify (set_mqttDiscoverySent false);;
      publishDiscovery
    else
      serial_print (Text "FAILED! Error code: ");;
      serial_print (Int (connect_code e));;
      serial_println (Text EmptyString);;
      explain_code (connect_code e).

Definition publishSensorData (e : LoopEnv) : M unit :=
  c <- mqtt_connected (alive_publish e);;
  if negb c then ret tt
  else
    s <- get;;
    let doc :=
      JObject []
      |> doc_set "temperature" (JFloat (tenths (tempC s)))
      |> doc_set "humidity" (JFloat (tenths (humid s)))
      |> doc_set "pressure" (JFloat (tenths (pressure s))) in
    mqtt_publish MQTT_STATE_TOPIC (serializeJson doc 128) true;;
    serial_println (Text "Published sensor data to MQTT").

(** ** Display and sensor *)

(** How [setup] went on: the runtime loop is entered, the node hangs in
    one of the endless loops of the init functions, or it reboots. *)
Inductive Outcome : Type := Running | Halted | Restarted.

(** [initOled]: [false] when the display is absent and the node hangs. *)
Definition initOled (b : BootEnv) : M bool :=
  serial_println (Text "I2C OLED Test!");;
  display DBegin;;
  if negb (display_begin b) then
    serial_println (Text "SSD1306 allocation failed");;
    ret false
  else
    display (DSetRotation 3);;
    display DDisplay;;
    delay 1000;;
    display DClearDisplay;;
    display DDisplay;;
    delay 1000;;
    display (DSetTextSize 1);;
    display DSetTextColor;;
    display (DSetCursor 0 0);;
    display (DCp437 true);;
    delay 1000;;
    ret true.

(** [initBME]: [false] when the sensor is absent and the node hangs. *)
Definition initBME (b : BootEnv) : M bool :=
  serial_println (Text "BME 280 test!");;
  if negb (bme_begin b) then
    serial_println (Text "Could not find BME280 sensor!");;
    ret false
  else
    serial_println (Text "-- Indoor Navigation Scenario --");;
    emit EvSetSampling;;
    ret true.

Definition printBME : M unit :=
  display DClearDisplay;;
  display (DSetCursor 0 0);;
  s <- get;;
  if isnan (humid s) || isnan (tempC s) then
    serial_println (Text "[ERROR] Failed to read from BME Sensor!");;
    display (DSetTextSize 1);;
    display (DPrintln (Text "BME Error"));;
    display DDisplay;;
    delay 1000
  else
    serial_print (Text "Humid: ");;
    serial_print (Float (humid s) 2);;
    serial_print (Text " %");;
    serial_print (Text (tab ++ "|" ++ tab ++ "Temp: "));;
    serial_print (Float (tempC s) 1);;
    serial_print (Text " C");;
    serial_print (Text (tab ++ "|" ++ tab ++ "Press: "));;
    serial_print (Float (pressure s) 1);;
    serial_println (Text (" hPa" ++ newline));;
    display (DSetTextSize 1);;
    display (DPrintln (Text "Humid:"));;
    display (DSetTextSize 2);;
    display (DPrint (Float (humid s) 1));;
    display (DPrintln (Text "%"));;
    display (DPrintln (Text EmptyString));;
    display (DSetTextSize 1);;
    display (DPrintln (Text "Temp:"));;
    display (DSetTextSize 2);;
    display (DPrint (Float (tempC s) 1));;
    display (DPrintln (Text "C"));;
    display (DPrintln (Text EmptyString));;
    display (DSetTextSize 1);;
    display (DPrintln (Text "Press:"));;
    display (DSetTextSize 2);;
    display (DPrint (Float (pressure s) 0));;
    display (DSetTextSize 1);;
    display (DPrintln (Text "hPa"));;
    display DDisplay.

Definition bme_read (ch : Channel) (v : spec_float) : M spec_float :=
  fun s => (v, s, [EvRead ch v]).

Definition readBME (e : LoopEnv) : M unit :=
  h <- bme_read Humidity (readHumidity e);;
  modify (set_humid h);;
  t <- bme_read Temperature (readTemperature e);;
  modify (set_tempC t);;
  p <- bme_read Pressure (readPressure e);;
  modify (set_pressure (F32.div p (F32.of_Z 100))).

(** ** Setup *)

Definition println_all (lines : list string) : M unit :=
  fold_right (fun l k => display (DPrintln (Text l));; k) (ret tt) lines.

(** The screen [setup] paints last, when the link is up. *)
Definition show_ip (b : BootEnv) : M Outcome :=
  (if is_connected (status_banner b) then
     display DClearDisplay;;
     display (DSetCursor 0 0);;
     display (DPrintln (Text "WiFi"));;
     display (DPrintln (Text "Connected!"));;
     display (DPrintln (Text EmptyString));;
     display (DPrintln LocalIP);;
     display DDisplay;;
     delay 2000
   else ret tt);;
  ret Running.

Definition setup (b : BootEnv) : M Outcome :=
  emit (EvSerialBegin 115200);;
  delay 1000;;
  serial_println (Text (newline ++ "=== Xiao Weather Station ==="));;
  emit (EvPinMode LED_PIN OUTPUT);;
  emit (EvPinMode BOOT_BTN INPUT_PULLUP);;
  (match button b with
   | LOW =>
       serial_println (Text "Boot button held - MQTT reset requested");;
       modify (set_mqttResetRequested true)
   | HIGH => ret tt
   end);;
  oled <- initOled b;;
  if negb oled then ret Halted else
  bme <- initBME b;;
  if negb bme then ret Halted else
  display DClearDisplay;;
  display (DSetCursor 0 0);;
  display (DSetTextSize 1);;
  s <- get;;
  (if mqttResetRequested s then
     println_all ["MQTT RESET"; "MODE"; EmptyString; "Connecting"; "to WiFi..."]
   else
     println_all ["Connecting"; "to WiFi..."]);;
  display DDisplay;;
  setupWiFi b;;
  emit (EvSetServer MQTT_SERVER MQTT_PORT);;
  emit (EvSetBufferSize MQTT_BUFFER);;
  s <- get;;
  if mqttResetRequested s && is_connected (status_reset b) then
    display DClearDisplay;;
    display (DSetCursor 0 0);;
    println_all ["Resetting"; "MQTT..."];;
    display DDisplay;;
    ok <- mqtt_connect DEVICE_NAME MQTT_USER MQTT_PASSWORD None
                       (reset_connect_code b);;
    if ok then
      resetMQTT;;
      mqtt_disconnect;;
      display DClearDisplay;;
      display (DSetCursor 0 0);;
      println_all ["MQTT Reset"; "Complete!"; EmptyString; "Restarting";
                   "in 3s..."];;
      display DDisplay;;
      delay 3000;;
      emit EvRestart;;
      ret Restarted
    else
      display DClearDisplay;;
      display (DSetCursor 0 0);;
      println_all ["MQTT Reset"; "FAILED!"; EmptyString; "Check MQTT";
                   "settings"];;
      display DDisplay;;
      delay 5000;;
      modify (set_mqttResetRequested false);;
      show_ip b
  else show_ip b.

(** ** Loop *)

(** The four blocks of [loop] after [checkWiFi], named by their comments
    in the source. *)

(** Maintain MQTT connection. *)
Definition maintainMQTT (e : LoopEnv) : M unit :=
  if is_connected (status_loop e) then
    c <- mqtt_connected (alive_loop e);;
    (if negb c then mqttReconnect e else ret tt);;
    mqtt_loop (alive_pump e);;
    ret tt
  else ret tt.

(** Read BME sensor. *)
Definition readSensor (e : LoopEnv) : M unit :=
  now <- millis (millis_bme_test e);;
  s <- get;;
  if (bmeDelay <=? usub now (bmeTime s)) || (bmeTime s =? 0) then
    t <- millis (millis_bme_set e);;
    modify (set_bmeTime t);;
    readBME e
  else ret tt.

(** Update OLED display. *)
Definition updateDisplay (e : LoopEnv) : M unit :=
  now <- millis (millis_oled_test e);;
  s <- get;;
  if (oledDelay <=? usub now (oledTime s)) || (oledTime s =? 0) then
    t <- millis (millis_oled_set e);;
    modify (set_oledTime t);;
    printBME
  else ret tt.

(** Publish to MQTT. *)
Definition publishState (e : LoopEnv) : M unit :=
  now <- millis (millis_mqtt_test e);;
  s <- get;;
  if (mqttDelay <=? usub now (mqttTime s)) || (mqttTime s =? 0) then
    t <- millis (millis_mqtt_set e);;
    modify (set_mqttTime t);;
    publishSensorData e
  else ret tt.

Definition loop (e : LoopEnv) : M unit :=
  checkWiFi e;;
  maintainMQTT e;;
  readSensor e;;
  updateDisplay e;;
  publishState e.

(** A run of the node after [setup]: one environment per iteration. *)
Fixpoint run (envs : list LoopEnv) (s : State) : State * list Event :=
  match envs with
  | [] => (s, [])
  | e :: rest =>
      let r := loop e s in
      let r' := run rest (state r) in
      (fst r', (trace r ++ snd r')%list)
  end.

(** ** Observations on traces *)

(** The messages sent to the broker. *)
Definition publishes (tr : list Event) : list (string * string * bool) :=
  flat_map (fun ev => match ev with
                      | EvPublish t p r => [(t, p, r)]
                      | _ => []
                      end) tr.

(** The messages the client refused: handed to it on a session, never
    sent. *)
Definition refused (tr : list Event) : list (string * string * bool) :=
  flat_map (fun ev => match ev with
                      | EvRefused t p r => [(t, p, r)]
                      | _ => []
                      end) tr.

(** The messages the sketch handed to the client on a session, sent or
    refused. *)
Definition handed_over (tr : list Event) : list (string * string * bool) :=
  flat_map (fun ev => match ev with
                      | EvPublish t p r | EvRefused t p r => [(t, p, r)]
                      | _ => []
                      end) tr.

Definition delays (tr : list Event) : list Z :=
  flat_map (fun ev => match ev with EvDelay ms => [ms] | _ => [] end) tr.

Definition display_ops (tr : list Event) : list DisplayOp :=
  flat_map (fun ev => match ev with EvDisplay op => [op] | _ => [] end) tr.

Definition is_flush (op : DisplayOp) : bool :=
  match op with DDisplay => true | _ => false end.

(** JSON text written with single quotes standing for the double ones. *)
Fixpoint json_text (s : string) : string :=
  match s with
  | EmptyString => EmptyString
  | String c rest =>
      String (if Ascii.eqb c "'"%char then dquote else c) (json_text rest)
  end.

(** The three-panel reading screen and the error banner. *)
Definition reading_screen (h t p : spec_float) : list DisplayOp :=
  [ DClearDisplay; DSetCursor 0 0;
    DSetTextSize 1; DPrintln (Text "Humid:");
    DSetTextSize 2; DPrint (Float h 1); DPrintln (Text "%");
    DPrintln (Text EmptyString);
    DSetTextSize 1; DPrintln (Text "Temp:");
    DSetTextSize 2; DPrint (Float t 1); DPrintln (Text "C");
    DPrintln (Text EmptyString);
    DSetTextSize 1; DPrintln (Text "Press:");
    DSetTextSize 2; DPrint (Float p 0);
    DSetTextSize 1; DPrintln (Text "hPa");
    DDisplay ].

Definition error_banner : list DisplayOp :=
  [ DClearDisplay; DSetCursor 0 0; DSetTextSize 1;
    DPrintln (Text "BME Error"); DDisplay ].


(** A reading cell on a live session, for the examples. *)
Definition with_reading (h t p : spec_float) (live : bool) : State :=
  set_session live (set_reading h t p boot_state).

(** An uneventful iteration at clock [t]: link up, transport alive, broker
    accepting, the sensor answering [h], [c] and [pa] (pascal). *)
Definition calm (t : Z) (h c pa : spec_float) : LoopEnv :=
  {| status_checkWiFi := WL_CONNECTED;
     millis_wifi_test := t; millis_wifi_set := t;
     status_loop := WL_CONNECTED; alive_loop := true; alive_reconnect := true;
     status_reconnect := WL_CONNECTED; connect_code := 0; alive_pump := true;
     millis_bme_test := t; millis_bme_set := t;
     readHumidity := h; readTemperature := c; readPressure := pa;
     millis_oled_test := t; millis_oled_set := t;
     millis_mqtt_test := t; millis_mqtt_set := t;
     alive_publish := true |}.

Definition member_keys (doc : Json) : list string :=
  match doc with JObject ms => map fst ms | _ => [] end.

Definition occurs (needle hay : string) : bool :=
  match String.index 0 needle hay with Some _ => true | None => false end.

(** The device object every discovery document carries. *)
Definition device_identity : Json :=
  JObject [ ("identifiers", JArray [JString DEVICE_NAME]);
            ("name", JString DEVICE_FRIENDLY_NAME);
            ("model", JString "XIAO ESP32-C3 + BME280");
            ("manufacturer", JString "Seeed Studio") ].

(** The schema of a discovery document for the sub-sensor [key], shown as
    [name] and measured in [unit]. *)
Definition discovery_schema (key name unit : string) (doc : Json) : Prop :=
  member_keys doc =
    [ "device"; "name"; "unique_id"; "state_topic"; "availability_topic";
      "payload_available"; "payload_not_available"; "value_template";
      "unit_of_measurement"; "device_class"; "state_class" ]
  /\ doc_get "device" doc = Some device_identity
  /\ doc_get "name" doc = Some (JString name)
  /\ doc_get "unique_id" doc = Some (JString ("xiao_weather_" ++ key))
  /\ doc_get "state_topic" doc = Some (JString MQTT_STATE_TOPIC)
  /\ doc_get "availability_topic" doc = Some (JString MQTT_AVAILABILITY_TOPIC)
  /\ doc_get "payload_available" doc = Some (JString "online")
  /\ doc_get "payload_not_available" doc = Some (JString "offline")
  /\ doc_get "value_template" doc
     = Some (JString ("{{ value_json." ++ key ++ " }}"))
  /\ doc_get "unit_of_measurement" doc = Some (JString unit)
  /\ doc_get "device_class" doc = Some (JString key)
  /\ doc_get "state_class" doc = Some (JString "measurement").

(** The messages of one discovery round. *)
Definition discovery_round : list (string * string * bool) :=
  [ (config_topic "temperature", writeJson temperature_config, true);
    (config_topic "humidity", writeJson humidity_config, true);
    (config_topic "pressure", writeJson pressure_config, true) ].

Definition is_serial (ev : Event) : bool :=
  match ev with EvSerial _ _ => true | _ => false end.

(** What the broker sees of a trace, and when its sessions end. *)
Definition is_wire (ev : Event) : bool :=
  match ev with
  | EvConnect _ _ _ _ _ | EvPublish _ _ _ | EvDisconnect | EvSessionLost => true
  | _ => false
  end.

Definition wire (tr : list Event) : list Event := filter is_wire tr.

(** The due-checks of [loop] and of [checkWiFi], on the state the block
    starts in. *)
Definition sample_due (e : LoopEnv) (s : State) : bool :=
  (bmeDelay <=? usub (wrap (millis_bme_test e)) (bmeTime s)) || (bmeTime s =? 0).
Definition display_due (e : LoopEnv) (s : State) : bool :=
  (oledDelay <=? usub (wrap (millis_oled_test e)) (oledTime s))
  || (oledTime s =? 0).
Definition publish_due (e : LoopEnv) (s : State) : bool :=
  (mqttDelay <=? usub (wrap (millis_mqtt_test e)) (mqttTime s))
  || (mqttTime s =? 0).
Definition retry_due (e : LoopEnv) (s : State) : bool :=
  negb (is_connected (status_checkWiFi e))
  && (wifiReconnectDelay <=? usub (wrap (millis_wifi_test e))
                                  (wifiReconnectTime s)).

(** [maintainMQTT] asks the broker for a session: link up at both checks
    and no live session. *)
Definition attempts_connect (e : LoopEnv) (s : State) : bool :=
  is_connected (status_loop e)
  && negb (session s && alive_loop e)
  && is_connected (status_reconnect e).

(** The session bit after [maintainMQTT]. *)
Definition session_after (e : LoopEnv) (s : State) : bool :=
  if is_connected (status_loop e) then
    (if session s && alive_loop e then true
     else is_connected (status_reconnect e) && (connect_code e =? 0))
    && alive_pump e
  else session s.

Definition sent_after (e : LoopEnv) (s : State) : bool :=
  if attempts_connect e s && (connect_code e =? 0) then true
  else mqttDiscoverySent s.

(** *** The publish calls of a trace *)

(** A publish the client took on a session, sent or refused. *)
Definition is_handed (ev : Event) : bool :=
  match ev with EvPublish _ _ _ | EvRefused _ _ _ => true | _ => false end.

Definition publish_calls (tr : list Event) : list Event :=
  filter is_handed tr.

Definition delivery (m : string * string * bool) : Event :=
  EvPublish (fst (fst m)) (snd (fst m)) (snd m).

Definition refusal (m : string * string * bool) : Event :=
  EvRefused (fst (fst m)) (snd (fst m)) (snd m).

(** No message to one of the three discovery topics is sent. *)
Definition not_discovery (ev : Event) : bool :=
  match ev with
  | EvPublish t _ _ =>
      negb (String.eqb t (config_topic "temperature")
            || String.eqb t (config_topic "humidity")
            || String.eqb t (config_topic "pressure"))
  | _ => true
  end.

(** The first iteration after a boot without reset, at clock 5000: link
    up, broker accepting, the sensor answering 41.25 %, 23.449 C and
    101324.9 Pa. *)
Definition cold_start : LoopEnv :=
  calm 5000 (F32.of_decimal 4125 2) (F32.of_decimal 23449 3)
       (F32.of_decimal 1013249 1).

(** *** Counting on traces *)

Definition is_attempt (ev : Event) : bool :=
  match ev with EvConnect _ _ _ _ _ => true | _ => false end.

Definition is_publish_to (topic : string) (ev : Event) : bool :=
  match ev with EvPublish t _ _ => String.eqb t topic | _ => false end.

Definition count (f : Event -> bool) (tr : list Event) : nat :=
  List.length (filter f tr).

(** *** Connection attempts against the clock *)

Inductive Tick : Type := Clock (t : Z) | Attempt.

Definition timeline (tr : list Event) : list Tick :=
  flat_map (fun ev => match ev with
                      | EvMillis t => [Clock t]
                      | EvConnect _ _ _ _ _ => [Attempt]
                      | _ => []
                      end) tr.

(** Attempts kept [period] apart: whenever the clock is read as [a] before
    an attempt and as [b] after a later one, [b - a] is at least [period]. *)
Definition spaced (period : Z) (tl : list Tick) : Prop :=
  forall pre mid post a b,
    tl = (pre ++ Clock a :: Attempt :: mid ++ Attempt :: Clock b :: post)%list ->
    period <= b - a.

(** An iteration at clock [t] in which the link is up and the broker turns
    the node away with bad credentials. *)
Definition rejecting (t : Z) : LoopEnv :=
  {| status_checkWiFi := WL_CONNECTED;
     millis_wifi_test := t; millis_wifi_set := t;
     status_loop := WL_CONNECTED; alive_loop := true; alive_reconnect := true;
     status_reconnect := WL_CONNECTED; connect_code := 4; alive_pump := true;
     millis_bme_test := t; millis_bme_set := t;
     readHumidity := F32.of_decimal 4125 2;
     readTemperature := F32.of_decimal 23449 3;
     readPressure := F32.of_decimal 1013249 1;
     millis_oled_test := t; millis_oled_set := t;
     millis_mqtt_test := t; millis_mqtt_set := t;
     alive_publish := true |}.

(** An iteration at clock [t] with the link down. *)
Definition offline (t : Z) : LoopEnv :=
  {| status_checkWiFi := WL_DISCONNECTED;
     millis_wifi_test := t; millis_wifi_set := t;
     status_loop := WL_DISCONNECTED; alive_loop := false;
     alive_reconnect := false;
     status_reconnect := WL_DISCONNECTED; connect_code := -2;
     alive_pump := false;
     millis_bme_test := t; millis_bme_set := t;
     readHumidity := F32.of_decimal 4125 2;
     readTemperature := F32.of_decimal 23449 3;
     readPressure := F32.of_decimal 1013249 1;
     millis_oled_test := t; millis_oled_set := t;
     millis_mqtt_test := t; millis_mqtt_set := t;
     alive_publish := false |}.

(** What [printBME] shows for a reading: the banner when humidity or
    temperature is NaN, the three panels otherwise. *)
Definition screen (h t p : spec_float) : list DisplayOp :=
  if isnan h || isnan t then error_banner else reading_screen h t p.

(** The reading the sensor hands over in an iteration, pressure in hPa. *)
Definition fresh (e : LoopEnv) : spec_float * spec_float * spec_float :=
  (readHumidity e, readTemperature e, F32.div (readPressure e) (F32.of_Z 100)).

Definition cell (s : State) : spec_float * spec_float * spec_float :=
  (humid s, tempC s, pressure s).

Definition screen_of (r : spec_float * spec_float * spec_float)
  : list DisplayOp :=
  screen (fst (fst r)) (snd (fst r)) (snd r).

(** The sleep [printBME] takes for a reading. *)
Definition banner_sleep (r : spec_float * spec_float * spec_float) : list Z :=
  if isnan (fst (fst r)) || isnan (snd (fst r)) then [1000] else [].

(** A node in steady state: session live, discovery latch set, every deadline
    last fired at [t0], the cell holding a good reading. *)
Definition steady (t0 : Z) : State :=
  {| humid := F32.of_decimal 4125 2; tempC := F32.of_decimal 23449 3;
     pressure := F32.of_decimal 1013249 3;
     oledTime := t0; bmeTime := t0; mqttTime := t0; wifiReconnectTime := 0;
     mqttDiscoverySent := true; mqttResetRequested := false;
     session := true |}.

(** A sensor whose humidity channel fails at clock [t]. *)
Definition humidity_fails (t : Z) : LoopEnv :=
  calm t S754_nan (F32.of_decimal 23449 3) (F32.of_decimal 1013249 1).

(** Events that only pass time or print. *)
Definition is_idle (ev : Event) : bool :=
  match ev with EvSerial _ _ | EvDelay _ => true | _ => false end.

Definition ends_with (x : Event) (tr : list Event) : Prop :=
  exists pre, tr = (pre ++ [x])%list.

(** The eight topics the reset clears, in the order it clears them. *)
Definition reset_topics : list string :=
  [ "homeassistant/sensor/pc_xiaoc3_weather/temperature/config";
    "homeassistant/sensor/pc_xiaoc3_weather/humidity/config";
    "homeassistant/sensor/pc_xiaoc3_weather/pressure/config";
    "homeassistant/sensor/pc_xiaoc3_weather/temperature_f/config";
    "homeassistant/sensor/pc_xiaoc3_weather/pressure_bar/config";
    "homeassistant/sensor/pc_xiaoc3_weather/altitude/config";
    "pc_xiaoc3_weather/state";
    "pc_xiaoc3_weather/availability" ].

(** A boot with the button held, every peripheral present, the link up
    after three polls and the broker accepting. *)
Definition reset_boot : BootEnv :=
  {| button := LOW; display_begin := true; bme_begin := true;
     status_poll := fun k => if (k <? 3)%nat then WL_DISCONNECTED
                             else WL_CONNECTED;
     status_setupWiFi := WL_CONNECTED; status_reset := WL_CONNECTED;
     reset_connect_code := 0; status_banner := WL_CONNECTED |}.

(** What [setup] must not touch: the reading cell and the deadlines. *)
Definition timers (s : State)
  : spec_float * spec_float * spec_float * Z * Z * Z * Z :=
  (cell s, bmeTime s, oledTime s, mqttTime s, wifiReconnectTime s).

Definition keeps {A} (m : M A) : Prop :=
  forall s, timers (state (m s)) = timers s.

(** ** Further observations *)

(** A command all of whose events, from every state, pass the test [P]. *)
Definition always {A} (P : Event -> bool) (m : M A) : Prop :=
  forall s, forallb P (trace (m s)) = true.

Definition topic_known (t : string) : bool :=
  existsb (String.eqb t) reset_topics.

(** A publish is in order when it is retained and goes to one of the
    eight topics of the device; any other event is. *)
Definition publish_ok (ev : Event) : bool :=
  match ev with
  | EvPublish t _ r => topic_known t && r
  | _ => true
  end.

(** What only [setup] may do: configure pins, serial port, link mode and
    broker client, close the session, restart the node. *)
Definition boot_only (ev : Event) : bool :=
  match ev with
  | EvSerialBegin _ | EvPinMode _ _ | EvSetSampling | EvWifiMode
  | EvSetServer _ _ | EvSetBufferSize _ | EvDisconnect | EvRestart
  | EvDisplay DBegin | EvDisplay (DSetRotation _) | EvDisplay DSetTextColor
  | EvDisplay (DCp437 _) => true
  | _ => false
  end.

Definition runtime_event (ev : Event) : bool := negb (boot_only ev).

(** The document of a state payload, from a reading. *)
Definition reading_doc (r : spec_float * spec_float * spec_float) : Json :=
  JObject [ ("temperature", JFloat (tenths (snd (fst r))));
            ("humidity", JFloat (tenths (fst (fst r))));
            ("pressure", JFloat (tenths (snd r))) ].

Definition online_publish : string * string * bool :=
  (MQTT_AVAILABILITY_TOPIC, "online", true).

Definition state_publish (r : spec_float * spec_float * spec_float)
  : string * string * bool :=
  (MQTT_STATE_TOPIC, serializeJson (reading_doc r) 128, true).

(** The reading in the cell when the display and publish blocks run. *)
Definition sampled (e : LoopEnv) (s : State)
  : spec_float * spec_float * spec_float :=
  if sample_due e s then fresh e else cell s.

(** The broker accepts the connect of this iteration. *)
Definition session_opens (e : LoopEnv) (s : State) : bool :=
  attempts_connect e s && (connect_code e =? 0).

(** The state payload goes out in this iteration. *)
Definition state_goes_out (e : LoopEnv) (s : State) : bool :=
  publish_due e s && (session_after e s && alive_publish e).

(** The link is up at both checks of [maintainMQTT]. *)
Definition link_up (e : LoopEnv) : bool :=
  is_connected (status_loop e) && is_connected (status_reconnect e).

Definition rejected (e : LoopEnv) : bool := negb (connect_code e =? 0).

Definition is_link (ev : Event) : bool :=
  match ev with
  | EvWifiMode | EvWifiBegin _ _ | EvWifiDisconnect => true
  | _ => false
  end.

(** The commands sent to the link driver. *)
Definition link_commands (tr : list Event) : list Event := filter is_link tr.

Definition total_sleep (tr : list Event) : Z := fold_right Z.add 0 (delays tr).

(** How many of the indices at the head of [l] pass the test [f]. *)
Fixpoint leading (f : nat -> bool) (l : list nat) : nat :=
  match l with
  | [] => O
  | j :: rest => if f j then S (leading f rest) else O
  end.

(** The polls of [setupWiFi] that find the link down before one finds it
    up, among the twenty it may wait for. *)
Definition failed_polls (b : BootEnv) : nat :=
  leading (fun j => negb (is_connected (status_poll b j))) (seq 0 20).

(** The display is told to print the line [line]. *)
Definition shows (line : string) (ev : Event) : bool :=
  match ev with
  | EvDisplay (DPrintln (Text l)) => String.eqb l line
  | _ => false
  end.

Definition is_restart (ev : Event) : bool :=
  match ev with EvRestart => true | _ => false end.

Definition state_publishes (tr : list Event) : list (string * string * bool) :=
  filter (fun m => String.eqb (fst (fst m)) MQTT_STATE_TOPIC) (publishes tr).

(** Steady state with every deadline last fired just before the counter
    wraps. *)
Definition before_wrap : State :=
  set_wifiReconnectTime (2 ^ 32 - 100) (steady (2 ^ 32 - 100)).

(** The clock of the iteration's check, [test], reads less than [period]
    after the instant [t1]. *)
Definition within (period t1 : Z) (test : LoopEnv -> Z) (e : LoopEnv) : bool :=
  (t1 <=? test e) && (test e <? t1 + period).

(** An uneventful iteration 150 ms later, the counter having wrapped. *)
Definition after_wrap : LoopEnv :=
  calm (2 ^ 32 + 50) (F32.of_decimal 4125 2) (F32.of_decimal 23449 3)
       (F32.of_decimal 1013249 1).

(** An uneventful iteration at the instant the counter wraps to zero. *)
Definition at_wrap : LoopEnv :=
  calm (2 ^ 32) (F32.of_decimal 4125 2) (F32.of_decimal 23449 3)
       (F32.of_decimal 1013249 1).

(** A connect request as [mqttReconnect] makes it: the node's identity and
    credentials, and the last will that marks the node offline. *)
Definition connect_ok (ev : Event) : bool :=
  match ev with
  | EvConnect id user pw (Some w) _ =>
      String.eqb id DEVICE_NAME && String.eqb user MQTT_USER
      && String.eqb pw MQTT_PASSWORD
      && String.eqb (willTopic w) MQTT_AVAILABILITY_TOPIC
      && (willQos w =? 0) && willRetain w
      && String.eqb (willMessage w) "offline"
  | EvConnect _ _ _ None _ => false
  | _ => true
  end.

(** The part of a trace before the client's buffer is sized. *)
Fixpoint before_sizing (tr : list Event) : list Event :=
  match tr with
  | [] => []
  | EvSetBufferSize _ :: _ => []
  | ev :: rest => ev :: before_sizing rest
  end.

(** Neither a publish call nor a sizing of the buffer. *)
Definition preparing (ev : Event) : bool :=
  match ev with
  | EvPublish _ _ _ | EvRefused _ _ _ | EvSetBufferSize _ => false
  | _ => true
  end.

(** A command that makes no publish call before it sizes the buffer. *)
Definition sizes_first {A} (m : M A) : Prop :=
  forall s, publish_calls (before_sizing (trace (m s))) = [].

(** The sizings of the client's buffer. *)
Definition sizings (tr : list Event) : list Z :=
  flat_map (fun ev => match ev with EvSetBufferSize n => [n] | _ => [] end) tr.

(** On a live session the discovery latch is set. *)
Definition latched (s : State) : bool :=
  implb (session s) (mqttDiscoverySent s).

(** ** Basic facts about the monad *)

Lemma trace_bind {A B} (m : M A) (k : A -> M B) (s : State) :
  trace (bind m k s) = (trace (m s) ++ trace (k (value (m s)) (state (m s))))%list.
Proof. reflexivity. Qed.

Lemma state_bind {A B} (m : M A) (k : A -> M B) (s : State) :
  state (bind m k s) = state (k (value (m s)) (state (m s))).
Proof. reflexivity. Qed.

Lemma value_bind {A B} (m : M A) (k : A -> M B) (s : State) :
  value (bind m k s) = value (k (value (m s)) (state (m s))).
Proof. reflexivity. Qed.

Lemma publishes_app (a b : list Event) :
  publishes (a ++ b) = (publishes a ++ publishes b)%list.
Proof. apply flat_map_app. Qed.

Lemma publish_calls_app (a b : list Event) :
  publish_calls (a ++ b) = (publish_calls a ++ publish_calls b)%list.
Proof. apply filter_app. Qed.

(** The three readings of the publish calls look at nothing else. *)
Lemma publishes_calls (tr : list Event) :
  publishes (publish_calls tr) = publishes tr.
Proof.
  unfold publishes, publish_calls.
  induction tr as [|ev tr IH]; [reflexivity|].
  destruct ev; simpl; rewrite ?IH; reflexivity.
Qed.

Lemma refused_calls (tr : list Event) :
  refused (publish_calls tr) = refused tr.
Proof.
  unfold refused, publish_calls.
  induction tr as [|ev tr IH]; [reflexivity|].
  destruct ev; simpl; rewrite ?IH; reflexivity.
Qed.

Lemma handed_over_calls (tr : list Event) :
  handed_over (publish_calls tr) = handed_over tr.
Proof.
  unfold handed_over, publish_calls.
  induction tr as [|ev tr IH]; [reflexivity|].
  destruct ev; simpl; rewrite ?IH; reflexivity.
Qed.

Lemma delays_app (a b : list Event) :
  delays (a ++ b) = (delays a ++ delays b)%list.
Proof. apply flat_map_app. Qed.

Lemma display_ops_app (a b : list Event) :
  display_ops (a ++ b) = (display_ops a ++ display_ops b)%list.
Proof. apply flat_map_app. Qed.

(** ** The state payload *)

Lemma length_take (n : nat) (s : string) :
  (String.length (take n s) <= n)%nat.
Proof.
  revert s. induction n as [|n IH]; intros [|c s]; simpl; try lia.
  specialize (IH s). lia.
Qed.

(** A state payload is cut to 127 bytes, so its packet of at most 157
    bytes always fits the client's buffer. *)
Lemma state_payload_fits (doc : Json) :
  too_large MQTT_STATE_TOPIC (serializeJson doc 128) = false.
Proof.
  unfold too_large, packet_size, serializeJson.
  pose proof (length_take (128 - 1) (writeJson doc)) as H.
  change (String.length MQTT_STATE_TOPIC) with 23%nat.
  unfold MQTT_BUFFER, MQTT_MAX_HEADER_SIZE. simpl Nat.sub in *.
  apply Z.ltb_ge. lia.
Qed.




(** ** Discovery *)

(** None of the three documents is cut by the 512-byte text buffer that
    [serializeJson] writes into. *)
Lemma discovery_payloads_fit :
  serializeJson temperature_config 512 = writeJson temperature_config
  /\ serializeJson humidity_config 512 = writeJson humidity_config
  /\ serializeJson pressure_config 512 = writeJson pressure_config.
Proof. repeat split; vm_compute; reflexivity. Qed.

(** The packets they make: topic and payload behind seven bytes of header,
    each larger than the client's buffer. *)
Lemma discovery_packet_sizes :
  packet_size (config_topic "temperature") (writeJson temperature_config) = 558
  /\ packet_size (config_topic "humidity") (writeJson humidity_config) = 541
  /\ packet_size (config_topic "pressure") (writeJson pressure_config) = 543.
Proof. repeat split; vm_compute; reflexivity. Qed.

Lemma publishDiscovery_round (s : State) :
  session s = true -> mqttDiscoverySent s = false ->
  handed_over (trace (publishDiscovery s)) = discovery_round
  /\ mqttDiscoverySent (state (publishDiscovery s)) = true.
Proof.
  intros Hs Hd. destruct s; simpl in Hs, Hd; subst.
  destruct discovery_payloads_fit as (Ht & Hh & Hp).
  unfold discovery_round. rewrite <- Ht, <- Hh, <- Hp.
  split; reflexivity.
Qed.

(** Claim C7, as the code has it.  A discovery round hands to the broker
    client, retained and not cut by the 512-byte text buffer, one JSON
    object per sub-sensor with exactly the keys device,
    name, unique_id, state_topic, availability_topic, payload_available
    (online), payload_not_available (offline), value_template (the
    sub-sensor's field of the state JSON), unit_of_measurement,
    device_class and state_class (measurement); the device object carries
    identifiers, name, model and manufacturer; the unique_id is the fixed
    prefix xiao_weather_ followed by the logical key. *)
Theorem discovery_payload_schema (s : State) :
  session s = true -> mqttDiscoverySent s = false ->
  handed_over (trace (publishDiscovery s)) = discovery_round
  /\ discovery_schema "temperature" "Temperature" (degree ++ "C")
                      temperature_config
  /\ discovery_schema "humidity" "Humidity" "%" humidity_config
  /\ discovery_schema "pressure" "Pressure" "hPa" pressure_config.
Proof.
  intros Hs Hd. split; [apply (publishDiscovery_round s Hs Hd)|].
  repeat split; reflexivity.
Qed.

Lemma discovery_payload_schema_witness :
  handed_over (trace (publishDiscovery
                      (with_reading (S754_zero false) (S754_zero false)
                                    (S754_zero false) true)))
  = discovery_round.
Proof.
  apply (discovery_payload_schema
           (with_reading (S754_zero false) (S754_zero false)
                         (S754_zero false) true)); reflexivity.
Defined.

(** Claim C7 as stated fails: the unique_id of the temperature document is
    a literal in which the node identifier does not occur, so it is not
    derived from it. *)
Lemma unique_id_not_from_node_id :
  ~ (exists uid, doc_get "unique_id" temperature_config = Some (JString uid)
                 /\ occurs DEVICE_NAME uid = true).
Proof.
  intros (uid & Hget & Hocc). vm_compute in Hget.
  injection Hget as <-. vm_compute in Hocc. discriminate.
Qed.

(** ** Symbolic execution of the blocks *)

Ltac unfold_keep_app :=
  cbv [checkWiFi maintainMQTT mqttReconnect publishDiscovery readSensor
       updateDisplay publishState publishSensorData printBME readBME bme_read
       mqtt_loop mqtt_connected mqtt_connect mqtt_publish mqtt_disconnect
       bind ret get modify emit serial_print serial_println display delay
       millis value state trace fst snd
       set_reading set_humid set_tempC set_pressure set_oledTime set_bmeTime
       set_mqttTime set_wifiReconnectTime set_mqttDiscoverySent
       set_mqttResetRequested set_session
       humid tempC pressure oledTime bmeTime mqttTime wifiReconnectTime
       mqttDiscoverySent mqttResetRequested session
       sample_due display_due publish_due retry_due attempts_connect
       session_after sent_after
       negb andb orb].

Ltac unfold_m := unfold_keep_app; cbv [app].

Ltac split_if :=
  match goal with
  | |- context [if ?c then _ else _] =>
      lazymatch c with
      | (if _ then _ else _) => fail
      | too_large _ _ => fail
      | _ => destruct c eqn:?
      end
  end.

(** Decide which publishes fit the client's buffer: a state payload always
    does, the other packets are closed and measured. *)
Ltac decide_sizes :=
  rewrite ?state_payload_fits;
  repeat match goal with
    | |- context [too_large ?t ?p] =>
        let b := eval vm_compute in (too_large t p) in
        change (too_large t p) with b
    end;
  cbv iota.

Ltac crunch := unfold_m; repeat (split_if; unfold_m); decide_sizes.


Lemma explain_code_serial (code : Z) (s : State) :
  snd (fst (explain_code code s)) = s
  /\ forallb is_serial (snd (explain_code code s)) = true.
Proof.
  unfold explain_code.
  destruct code as [|p|p]; try (split; reflexivity);
    do 4 (try (destruct p as [p|p|]; try (split; reflexivity))).
Qed.

(** Forget what [explain_code] printed: only that it is serial output. *)
Ltac forget_explain :=
  repeat match goal with
    | |- context [explain_code ?c ?s] =>
        let Hs := fresh "Hs" in
        let Ht := fresh "Ht" in
        destruct (explain_code_serial c s) as [Hs Ht];
        destruct (explain_code c s) as [[? ?] ?];
        cbv [fst snd] in Hs, Ht; subst
    end.

Lemma wire_app (a b : list Event) : wire (a ++ b) = (wire a ++ wire b)%list.
Proof. apply filter_app. Qed.

Lemma wire_serial (tr : list Event) :
  forallb is_serial tr = true -> wire tr = [].
Proof.
  induction tr as [|ev tr IH]; [reflexivity|].
  simpl. destruct ev; simpl; try discriminate. exact IH.
Qed.

Lemma delays_serial (tr : list Event) :
  forallb is_serial tr = true -> delays tr = [].
Proof.
  induction tr as [|ev tr IH]; [reflexivity|].
  simpl. destruct ev; simpl; try discriminate. exact IH.
Qed.

(** Decide every answer of the environment that [maintainMQTT] consults,
    and the session bit, before running the block: nothing stays stuck. *)
Ltac decide_env e :=
  repeat match goal with
    | |- context [is_connected (?f e)] => destruct (is_connected (f e)) eqn:?
    | |- context [alive_loop e] => destruct (alive_loop e) eqn:?
    | |- context [alive_pump e] => destruct (alive_pump e) eqn:?
    | |- context [connect_code e =? 0] => destruct (connect_code e =? 0) eqn:?
    end.

Ltac run_maintain e :=
  unfold maintainMQTT, mqttReconnect, mqtt_loop, mqtt_connected, mqtt_connect,
    session_after, sent_after, attempts_connect;
  decide_env e; unfold_keep_app; forget_explain; unfold_keep_app.

(** *** The state after each block *)

Lemma checkWiFi_state (e : LoopEnv) (s : State) :
  state (checkWiFi e s) =
    if retry_due e s then set_wifiReconnectTime (wrap (millis_wifi_set e)) s
    else s.
Proof. destruct s. crunch; reflexivity. Qed.

Lemma maintainMQTT_state (e : LoopEnv) (s : State) :
  state (maintainMQTT e s) =
    set_mqttDiscoverySent (sent_after e s) (set_session (session_after e s) s).
Proof.
  destruct s as [h t p ot bt mt wt sent rr [|]]; run_maintain e; reflexivity.
Qed.

Lemma readSensor_state (e : LoopEnv) (s : State) :
  state (readSensor e s) =
    if sample_due e s then
      set_reading (readHumidity e) (readTemperature e)
                  (F32.div (readPressure e) (F32.of_Z 100))
                  (set_bmeTime (wrap (millis_bme_set e)) s)
    else s.
Proof. destruct s. crunch; reflexivity. Qed.

Lemma updateDisplay_state (e : LoopEnv) (s : State) :
  state (updateDisplay e s) =
    if display_due e s then set_oledTime (wrap (millis_oled_set e)) s else s.
Proof. destruct s. crunch; reflexivity. Qed.

Lemma publishState_state (e : LoopEnv) (s : State) :
  state (publishState e s) =
    if publish_due e s then
      set_session (session s && alive_publish e)
                  (set_mqttTime (wrap (millis_mqtt_set e)) s)
    else s.
Proof. destruct s. crunch; reflexivity. Qed.

(** The session bit is untouched by the blocks that do not talk to the
    broker. *)
Lemma checkWiFi_session (e : LoopEnv) (s : State) :
  session (state (checkWiFi e s)) = session s.
Proof. rewrite checkWiFi_state. destruct (retry_due e s); reflexivity. Qed.

Lemma readSensor_session (e : LoopEnv) (s : State) :
  session (state (readSensor e s)) = session s.
Proof. rewrite readSensor_state. destruct (sample_due e s); reflexivity. Qed.

Lemma updateDisplay_session (e : LoopEnv) (s : State) :
  session (state (updateDisplay e s)) = session s.
Proof. rewrite updateDisplay_state. destruct (display_due e s); reflexivity. Qed.

(** The trace and the state of one iteration, block by block. *)
Lemma loop_trace (e : LoopEnv) (s : State) :
  let s1 := state (checkWiFi e s) in
  let s2 := state (maintainMQTT e s1) in
  let s3 := state (readSensor e s2) in
  let s4 := state (updateDisplay e s3) in
  trace (loop e s) =
    (trace (checkWiFi e s) ++ trace (maintainMQTT e s1)
       ++ trace (readSensor e s2) ++ trace (updateDisplay e s3)
       ++ trace (publishState e s4))%list.
Proof.
  cbv beta iota zeta delta [loop bind state value trace fst snd].
  reflexivity.
Qed.

Lemma loop_state (e : LoopEnv) (s : State) :
  state (loop e s) =
    state (publishState e
      (state (updateDisplay e
        (state (readSensor e
          (state (maintainMQTT e (state (checkWiFi e s))))))))).
Proof.
  cbv beta iota zeta delta [loop bind state value trace fst snd].
  reflexivity.
Qed.

Lemma run_cons (e : LoopEnv) (envs : list LoopEnv) (s : State) :
  run (e :: envs) s =
    (fst (run envs (state (loop e s))),
     (trace (loop e s) ++ snd (run envs (state (loop e s))))%list).
Proof. reflexivity. Qed.

Lemma count_cons (f : Event -> bool) (ev : Event) (tr : list Event) :
  count f (ev :: tr) = ((if f ev then 1 else 0) + count f tr)%nat.
Proof. unfold count. simpl. destruct (f ev); reflexivity. Qed.

Lemma count_app (f : Event -> bool) (a b : list Event) :
  count f (a ++ b) = (count f a + count f b)%nat.
Proof. unfold count. rewrite filter_app. apply length_app. Qed.

(** ** Reconnecting *)

Lemma count_serial (f : Event -> bool) (tr : list Event) :
  (forall it nl, f (EvSerial it nl) = false) ->
  forallb is_serial tr = true -> count f tr = 0%nat.
Proof.
  intros Hf. induction tr as [|ev tr IH]; [reflexivity|].
  simpl. destruct ev; simpl; try discriminate.
  intro H. rewrite count_cons, Hf. apply IH, H.
Qed.

Lemma checkWiFi_attempts (e : LoopEnv) (s : State) :
  count is_attempt (trace (checkWiFi e s)) = 0%nat.
Proof. destruct s. crunch; reflexivity. Qed.

Lemma readSensor_attempts (e : LoopEnv) (s : State) :
  count is_attempt (trace (readSensor e s)) = 0%nat.
Proof. destruct s. crunch; reflexivity. Qed.

Lemma updateDisplay_attempts (e : LoopEnv) (s : State) :
  count is_attempt (trace (updateDisplay e s)) = 0%nat.
Proof. destruct s. crunch; reflexivity. Qed.

Lemma publishState_attempts (e : LoopEnv) (s : State) :
  count is_attempt (trace (publishState e s)) = 0%nat.
Proof. destruct s. crunch; reflexivity. Qed.

Lemma maintainMQTT_attempts (e : LoopEnv) (s : State) :
  count is_attempt (trace (maintainMQTT e s))
  = if attempts_connect e s then 1%nat else 0%nat.
Proof.
  destruct s as [h t p ot bt mt wt sent rr [|]]; run_maintain e;
    rewrite ?count_app;
    try match goal with
      | H : forallb is_serial ?l = true |- _ =>
          rewrite (count_serial is_attempt l (fun _ _ => eq_refl) H)
      end;
    reflexivity.
Qed.

(** Claim C5, as the code has it.  An iteration of the loop asks the broker
    for a session at most once, and does so exactly when the link is up at
    both checks and no session is live: no clock and no cooldown enter the
    decision. *)
Theorem one_reconnect_per_tick (e : LoopEnv) (s : State) :
  count is_attempt (trace (loop e s))
  = if is_connected (status_loop e)
       && negb (session s && alive_loop e)
       && is_connected (status_reconnect e)
    then 1%nat else 0%nat.
Proof.
  rewrite loop_trace. cbv zeta.
  rewrite !count_app, checkWiFi_attempts, maintainMQTT_attempts,
    readSensor_attempts, updateDisplay_attempts, publishState_attempts.
  unfold attempts_connect. rewrite checkWiFi_session.
  destruct (_ && _ && _); reflexivity.
Qed.

(** Claim C5 as stated fails: with the link up and the broker rejecting,
    the iterations at clock 5010 and 5020 each make an attempt, both after
    the clock read 5000 and before it reads 5020, far less than the 30000 ms
    of the retry cooldown apart. *)
Lemma reconnect_not_rate_limited :
  ~ spaced wifiReconnectDelay
      (timeline (snd (run [rejecting 5000; rejecting 5010; rejecting 5020]
                          boot_state))).
Proof.
  intro H.
  specialize (H [Attempt; Clock 5000; Clock 5000; Clock 5000; Clock 5000;
                 Clock 5000]
                [Clock 5010; Clock 5010; Clock 5010]
                [Clock 5020; Clock 5020] 5000 5020).
  vm_compute in H. apply H; reflexivity.
Qed.

(** ** The soft deadlines *)

Lemma loop_due_iff (period now deadline : Z) :
  (period <=? usub now deadline) || (deadline =? 0) = true
  <-> (period <= (now - deadline) mod 2 ^ 32 \/ deadline = 0).
Proof.
  rewrite orb_true_iff, Z.leb_le, Z.eqb_eq. reflexivity.
Qed.

Lemma due_checks_display (e : LoopEnv) (s : State) :
  trace (updateDisplay e s)
  = EvMillis (wrap (millis_oled_test e))
      :: (if display_due e s then
            EvMillis (wrap (millis_oled_set e))
              :: trace (printBME (set_oledTime (wrap (millis_oled_set e)) s))
          else []).
Proof.
  destruct s. unfold updateDisplay, display_due.
  cbv [bind millis get modify value state trace fst snd app oledTime].
  split_if; reflexivity.
Qed.

(** Claim C4, as the code has it.  Each of the three deadlines of the loop
    (sensor sample, display refresh, state publish) fires when
    [now - deadline >= period] in 32-bit wrap-around arithmetic or when the
    deadline is zero; the link-retry cooldown, checked only while the link
    is down, fires when [now - deadline >= period] and has no rule for
    zero.  A deadline that fires is set to the clock value read next and
    its collaborator runs once; one that does not fire leaves the state as
    it is and only reads the clock. *)
Theorem due_checks (e : LoopEnv) (s : State) :
  ((sample_due e s = true
      <-> bmeDelay <= (wrap (millis_bme_test e) - bmeTime s) mod 2 ^ 32
          \/ bmeTime s = 0)
   /\ trace (readSensor e s)
      = EvMillis (wrap (millis_bme_test e))
          :: (if sample_due e s then
                EvMillis (wrap (millis_bme_set e))
                  :: trace (readBME e (set_bmeTime (wrap (millis_bme_set e)) s))
              else [])
   /\ bmeTime (state (readSensor e s))
      = if sample_due e s then wrap (millis_bme_set e) else bmeTime s)
  /\ ((display_due e s = true
         <-> oledDelay <= (wrap (millis_oled_test e) - oledTime s) mod 2 ^ 32
             \/ oledTime s = 0)
      /\ trace (updateDisplay e s)
         = EvMillis (wrap (millis_oled_test e))
             :: (if display_due e s then
                   EvMillis (wrap (millis_oled_set e))
                     :: trace (printBME (set_oledTime (wrap (millis_oled_set e)) s))
                 else [])
      /\ oledTime (state (updateDisplay e s))
         = if display_due e s then wrap (millis_oled_set e) else oledTime s)
  /\ ((publish_due e s = true
         <-> mqttDelay <= (wrap (millis_mqtt_test e) - mqttTime s) mod 2 ^ 32
             \/ mqttTime s = 0)
      /\ trace (publishState e s)
         = EvMillis (wrap (millis_mqtt_test e))
             :: (if publish_due e s then
                   EvMillis (wrap (millis_mqtt_set e))
                     :: trace (publishSensorData e
                                 (set_mqttTime (wrap (millis_mqtt_set e)) s))
                 else [])
      /\ mqttTime (state (publishState e s))
         = if publish_due e s then wrap (millis_mqtt_set e) else mqttTime s)
  /\ ((retry_due e s = true
         <-> is_connected (status_checkWiFi e) = false
             /\ wifiReconnectDelay
                <= (wrap (millis_wifi_test e) - wifiReconnectTime s) mod 2 ^ 32)
      /\ trace (checkWiFi e s)
         = (if is_connected (status_checkWiFi e) then []
            else EvMillis (wrap (millis_wifi_test e))
                   :: (if retry_due e s then
                         [ EvMillis (wrap (millis_wifi_set e));
                           EvSerial (Text "WiFi disconnected, attempting reconnection...") true;
                           EvWifiDisconnect;
                           EvWifiBegin WIFI_SSID WIFI_PASSWORD ]
                       else []))
      /\ wifiReconnectTime (state (checkWiFi e s))
         = if retry_due e s then wrap (millis_wifi_set e)
           else wifiReconnectTime s).
Proof.
  repeat match goal with |- _ /\ _ => split end.
  - apply loop_due_iff.
  - destruct s. crunch; reflexivity.
  - rewrite readSensor_state. destruct (sample_due e s); reflexivity.
  - apply loop_due_iff.
  - apply due_checks_display.
  - rewrite updateDisplay_state. destruct (display_due e s); reflexivity.
  - apply loop_due_iff.
  - destruct s. unfold publishState, publish_due.
    cbv [bind millis get modify value state trace fst snd app mqttTime].
    split_if; reflexivity.
  - rewrite publishState_state. destruct (publish_due e s); reflexivity.
  - unfold retry_due. rewrite andb_true_iff, negb_true_iff, Z.leb_le.
    reflexivity.
  - destruct s. unfold retry_due. crunch; reflexivity.
  - rewrite checkWiFi_state. destruct (retry_due e s); reflexivity.
Qed.

(** Claim C4 as stated fails twice at boot, with the clock at 5000.  The
    state-publish deadline fires (it moves from zero to 5000) although only
    5000 ms of its 10000 have passed; and the link-retry cooldown, never
    fired and checked for the first time with the link down, does not
    fire. *)
Lemma due_check_not_uniform :
  (mqttTime boot_state = 0
   /\ mqttTime (state (publishState (offline 5000) boot_state)) = 5000
   /\ ~ mqttDelay <= (5000 - mqttTime boot_state) mod 2 ^ 32)
  /\ (wifiReconnectTime boot_state = 0
      /\ is_connected (status_checkWiFi (offline 5000)) = false
      /\ trace (checkWiFi (offline 5000) boot_state) = [EvMillis 5000]
      /\ state (checkWiFi (offline 5000) boot_state) = boot_state).
Proof.
  repeat split; try reflexivity. vm_compute. intro H. apply H. reflexivity.
Qed.

(** ** Rendering and sleeping *)

Lemma printBME_state (s : State) : state (printBME s) = s.
Proof. destruct s. crunch; reflexivity. Qed.

Lemma printBME_display (s : State) :
  display_ops (trace (printBME s)) = screen_of (cell s).
Proof.
  destruct s. unfold screen_of, cell, screen. crunch; reflexivity.
Qed.

Lemma printBME_delays (s : State) :
  delays (trace (printBME s)) = banner_sleep (cell s).
Proof.
  destruct s. unfold banner_sleep, cell. crunch; reflexivity.
Qed.

Lemma printBME_flushes_once (s : State) :
  List.length (filter is_flush (display_ops (trace (printBME s)))) = 1%nat.
Proof.
  rewrite printBME_display. unfold screen_of, screen.
  destruct (isnan _ || isnan _); reflexivity.
Qed.

(** The cell and the display deadline, just before the display block. *)
Lemma before_display (e : LoopEnv) (s : State) :
  let s3 := state (readSensor e (state (maintainMQTT e (state (checkWiFi e s)))))
  in cell s3 = (if sample_due e s then fresh e else cell s)
     /\ oledTime s3 = oledTime s
     /\ display_due e s3 = display_due e s.
Proof.
  cbv zeta. rewrite readSensor_state, maintainMQTT_state, checkWiFi_state.
  generalize (session_after e
                (if retry_due e s
                 then set_wifiReconnectTime (wrap (millis_wifi_set e)) s
                 else s)).
  generalize (sent_after e
                (if retry_due e s
                 then set_wifiReconnectTime (wrap (millis_wifi_set e)) s
                 else s)).
  intros b1 b2. destruct s. unfold cell, fresh.
  destruct (retry_due e _); crunch; repeat split; try reflexivity;
    congruence.
Qed.

Lemma checkWiFi_delays (e : LoopEnv) (s : State) :
  delays (trace (checkWiFi e s)) = [].
Proof. destruct s. crunch; reflexivity. Qed.

Lemma readSensor_delays (e : LoopEnv) (s : State) :
  delays (trace (readSensor e s)) = [].
Proof. destruct s. crunch; reflexivity. Qed.

Lemma publishState_delays (e : LoopEnv) (s : State) :
  delays (trace (publishState e s)) = [].
Proof. destruct s. crunch; reflexivity. Qed.

Lemma maintainMQTT_delays (e : LoopEnv) (s : State) :
  delays (trace (maintainMQTT e s)) = [].
Proof.
  destruct s as [h t p ot bt mt wt sent rr [|]]; run_maintain e;
    rewrite ?delays_app;
    try match goal with
      | H : forallb is_serial ?l = true |- _ => rewrite (delays_serial l H)
      end;
    reflexivity.
Qed.

Lemma updateDisplay_delays (e : LoopEnv) (s : State) :
  delays (trace (updateDisplay e s))
  = if display_due e s then banner_sleep (cell s) else [].
Proof.
  rewrite due_checks_display. destruct (display_due e s); [|reflexivity].
  cbn [delays flat_map app]. fold (delays (trace (printBME
    (set_oledTime (wrap (millis_oled_set e)) s)))).
  rewrite printBME_delays. destruct s; reflexivity.
Qed.

(** Claim C9, as the code has it.  [printBME] flushes one frame per call;
    it does not sleep when it shows a reading, and sleeps 1000 ms after the
    flush when it shows the error banner (humidity or temperature NaN).
    An iteration of the loop sleeps only there: when the display deadline
    fires on a cell, as the sample block left it, that has NaN humidity or
    temperature. *)
Theorem sleeps_only_under_error_banner (e : LoopEnv) (s : State) :
  List.length (filter is_flush (display_ops (trace (printBME s)))) = 1%nat
  /\ delays (trace (printBME s))
     = (if isnan (humid s) || isnan (tempC s) then [1000] else [])
  /\ delays (trace (loop e s))
     = (if display_due e s then
          banner_sleep (if sample_due e s then fresh e else cell s)
        else []).
Proof.
  split; [apply printBME_flushes_once|].
  split; [apply printBME_delays|].
  rewrite loop_trace. cbv zeta.
  rewrite !delays_app, checkWiFi_delays, maintainMQTT_delays,
    readSensor_delays, publishState_delays, updateDisplay_delays.
  destruct (before_display e s) as (Hcell & _ & Hdue).
  rewrite Hcell, Hdue. simpl. apply app_nil_r.
Qed.

(** Claim C9 as stated fails: when the humidity channel reads NaN and the
    display deadline fires, the renderer paints the banner and then sleeps
    a full second, and so does the iteration of the loop. *)
Lemma error_banner_sleeps :
  display_ops (trace (printBME (with_reading S754_nan (F32.of_decimal 23449 3)
                                  (F32.of_decimal 1013249 3) true)))
    = error_banner
  /\ delays (trace (printBME (with_reading S754_nan (F32.of_decimal 23449 3)
                                (F32.of_decimal 1013249 3) true)))
     = [1000]
  /\ delays (trace (loop (humidity_fails 20000) (steady 1000))) = [1000].
Proof. repeat split; vm_compute; reflexivity. Qed.

(** ** Sampling before rendering *)

Lemma display_ops_serial (tr : list Event) :
  forallb is_serial tr = true -> display_ops tr = [].
Proof.
  induction tr as [|ev tr IH]; [reflexivity|].
  simpl. destruct ev; simpl; try discriminate. exact IH.
Qed.

Lemma checkWiFi_display (e : LoopEnv) (s : State) :
  display_ops (trace (checkWiFi e s)) = [].
Proof. destruct s. crunch; reflexivity. Qed.

Lemma readSensor_display (e : LoopEnv) (s : State) :
  display_ops (trace (readSensor e s)) = [].
Proof. destruct s. crunch; reflexivity. Qed.

Lemma publishState_display (e : LoopEnv) (s : State) :
  display_ops (trace (publishState e s)) = [].
Proof. destruct s. crunch; reflexivity. Qed.

Lemma maintainMQTT_display (e : LoopEnv) (s : State) :
  display_ops (trace (maintainMQTT e s)) = [].
Proof.
  destruct s as [h t p ot bt mt wt sent rr [|]]; run_maintain e;
    rewrite ?display_ops_app;
    try match goal with
      | H : forallb is_serial ?l = true |- _ =>
          rewrite (display_ops_serial l H)
      end;
    reflexivity.
Qed.

Lemma updateDisplay_display (e : LoopEnv) (s : State) :
  display_ops (trace (updateDisplay e s))
  = if display_due e s then screen_of (cell s) else [].
Proof.
  rewrite due_checks_display. destruct (display_due e s); [|reflexivity].
  cbn [display_ops flat_map app]. fold (display_ops (trace (printBME
    (set_oledTime (wrap (millis_oled_set e)) s)))).
  rewrite printBME_display. destruct s; reflexivity.
Qed.

Lemma loop_display (e : LoopEnv) (s : State) :
  display_ops (trace (loop e s))
  = if display_due e s then
      screen_of (if sample_due e s then fresh e else cell s)
    else [].
Proof.
  rewrite loop_trace. cbv zeta.
  rewrite !display_ops_app, checkWiFi_display, maintainMQTT_display,
    readSensor_display, publishState_display, updateDisplay_display.
  destruct (before_display e s) as (Hcell & _ & Hdue).
  rewrite Hcell, Hdue. simpl. apply app_nil_r.
Qed.

(** ** Setup *)

Lemma wifi_wait_idle (poll : nat -> wl_status) (remaining attempts : nat)
    (s : State) :
  snd (fst (wifi_wait poll remaining attempts s)) = s
  /\ forallb is_idle (snd (wifi_wait poll remaining attempts s)) = true.
Proof.
  revert attempts s. induction remaining as [|r IH]; intros attempts s.
  - simpl. destruct (is_connected (poll attempts)); split; reflexivity.
  - simpl. destruct (is_connected (poll attempts)); [split; reflexivity|].
    destruct (IH (S attempts) s) as [Hs Ht].
    cbv [bind delay serial_print emit value state trace fst snd app].
    split; [exact Hs|]. simpl. exact Ht.
Qed.

Ltac forget_wait :=
  repeat match goal with
    | |- context [wifi_wait ?p ?r ?a ?s] =>
        let Hs := fresh "Hs" in
        let Ht := fresh "Ht" in
        destruct (wifi_wait_idle p r a s) as [Hs Ht];
        destruct (wifi_wait p r a s) as [[? ?] ?];
        cbv [fst snd] in Hs, Ht; subst
    end.

Ltac unfold_boot :=
  cbv [setup initOled initBME setupWiFi show_ip resetMQTT println_all
       fold_right
       mqtt_connect mqtt_publish mqtt_disconnect
       bind ret get modify emit serial_print serial_println display delay
       value state trace fst snd
       set_reading set_humid set_tempC set_pressure set_oledTime set_bmeTime
       set_mqttTime set_wifiReconnectTime set_mqttDiscoverySent
       set_mqttResetRequested set_session
       humid tempC pressure oledTime bmeTime mqttTime wifiReconnectTime
       mqttDiscoverySent mqttResetRequested session cell
       negb andb orb].

Ltac decide_boot b :=
  repeat match goal with
    | |- context [is_connected (?f b)] => destruct (is_connected (f b)) eqn:?
    | |- context [button b] => destruct (button b) eqn:?
    | |- context [display_begin b] => destruct (display_begin b) eqn:?
    | |- context [bme_begin b] => destruct (bme_begin b) eqn:?
    | |- context [reset_connect_code b =? 0] =>
        destruct (reset_connect_code b =? 0) eqn:?
    end.

(** Run [setup] up to the polling loop, with the reset itself still
    folded; then forget the polls and run the rest. *)
Ltac run_setup b :=
  unfold setup, initOled, initBME, setupWiFi, show_ip, mqtt_connect;
  decide_boot b;
  cbv [println_all fold_right
       bind ret get modify emit serial_print serial_println display delay
       value state trace fst snd
       set_mqttResetRequested set_session
       humid tempC pressure oledTime bmeTime mqttTime wifiReconnectTime
       mqttDiscoverySent mqttResetRequested session
       negb andb orb];
  forget_wait; unfold_boot.

(** *** A frame rule: commands that keep the cell and the deadlines *)

Lemma keeps_ret {A} (a : A) : keeps (ret a).
Proof. intro s. reflexivity. Qed.

Lemma keeps_bind {A B} (m : M A) (k : A -> M B) :
  keeps m -> (forall a, keeps (k a)) -> keeps (bind m k).
Proof.
  intros Hm Hk s. rewrite state_bind. rewrite Hk. apply Hm.
Qed.

Lemma keeps_emit (ev : Event) : keeps (emit ev).
Proof. intro s. reflexivity. Qed.

Lemma keeps_get : keeps get.
Proof. intro s. reflexivity. Qed.

Lemma keeps_reset_flag (b : bool) : keeps (modify (set_mqttResetRequested b)).
Proof. intros [? ? ? ? ? ? ? ? ? ?]. reflexivity. Qed.

Lemma keeps_connect id user pw will code :
  keeps (mqtt_connect id user pw will code).
Proof. intros [? ? ? ? ? ? ? ? ? ?]. reflexivity. Qed.

Lemma keeps_publish topic payload retained :
  keeps (mqtt_publish topic payload retained).
Proof. intros [? ? ? ? ? ? ? ? ? [|]]; reflexivity. Qed.

Lemma keeps_disconnect : keeps mqtt_disconnect.
Proof. intros [? ? ? ? ? ? ? ? ? ?]. reflexivity. Qed.

Ltac keeps_step :=
  lazymatch goal with
  | |- keeps (bind _ _) => apply keeps_bind; [|intro]
  | |- keeps (ret _) => apply keeps_ret
  | |- keeps (emit _) => apply keeps_emit
  | |- keeps get => apply keeps_get
  | |- keeps (modify (set_mqttResetRequested _)) => apply keeps_reset_flag
  | |- keeps (mqtt_connect _ _ _ _ _) => apply keeps_connect
  | |- keeps (mqtt_publish _ _ _) => apply keeps_publish
  | |- keeps mqtt_disconnect => apply keeps_disconnect
  | |- keeps (if ?c then _ else _) => destruct c
  | |- keeps (match ?x with _ => _ end) => destruct x
  end.

Lemma keeps_wifi_wait (poll : nat -> wl_status) (remaining attempts : nat) :
  keeps (wifi_wait poll remaining attempts).
Proof.
  revert attempts. induction remaining as [|r IH]; intro attempts; simpl;
    destruct (is_connected (poll attempts)); try apply keeps_ret.
  unfold delay, serial_print. repeat keeps_step. apply IH.
Qed.

(** [setup] leaves the reading cell and the four deadlines as they are. *)
Lemma setup_keeps_timers (b : BootEnv) : keeps (setup b).
Proof.
  unfold setup, initOled, initBME, setupWiFi, show_ip, resetMQTT, println_all,
    fold_right, serial_print, serial_println, display, delay.
  repeat lazymatch goal with
    | |- keeps (wifi_wait _ _ _) => apply keeps_wifi_wait
    | _ => keeps_step
    end.
Qed.

(** Claim C10.  In every iteration the sample block comes before the
    display block, and what the display block renders is the cell as the
    sample block of the same iteration left it.  In the first iteration
    after [setup] both deadlines are still zero and fire, so the first
    screen is drawn from the values the sensor returned in that iteration,
    not from the zero-initialised cell. *)
Theorem first_render_shows_fresh_sample (b : BootEnv) (e : LoopEnv)
    (s : State) :
  (exists pre post s2,
      trace (loop e s)
      = (pre ++ trace (readSensor e s2)
             ++ trace (updateDisplay e (state (readSensor e s2)))
             ++ post)%list)
  /\ display_ops (trace (loop e s))
     = (if display_due e s then
          screen_of (if sample_due e s then fresh e else cell s)
        else [])
  /\ (let s0 := state (setup b boot_state) in
      sample_due e s0 = true
      /\ display_due e s0 = true
      /\ display_ops (trace (loop e s0)) = screen_of (fresh e)).
Proof.
  split; [|split].
  - exists (trace (checkWiFi e s)
              ++ trace (maintainMQTT e (state (checkWiFi e s))))%list.
    eexists. eexists. rewrite loop_trace. cbv zeta.
    rewrite <- app_assoc. reflexivity.
  - apply loop_display.
  - cbv zeta. pose proof (setup_keeps_timers b boot_state) as H.
    unfold timers in H.
    injection H as _ _ _ Hb Ho _ _.
    assert (Hs : sample_due e (state (setup b boot_state)) = true)
      by (unfold sample_due; rewrite Hb; apply orb_true_r).
    assert (Hd : display_due e (state (setup b boot_state)) = true)
      by (unfold display_due; rewrite Ho; apply orb_true_r).
    repeat split; try assumption.
    rewrite loop_display, Hs, Hd. reflexivity.
Qed.

Lemma wire_idle (tr : list Event) : forallb is_idle tr = true -> wire tr = [].
Proof.
  induction tr as [|ev tr IH]; [reflexivity|].
  simpl. destruct ev; simpl; try discriminate; exact IH.
Qed.

Lemma ends_with_one (x : Event) : ends_with x [x].
Proof. exists []. reflexivity. Qed.

Lemma ends_with_cons (x y : Event) (tr : list Event) :
  ends_with x tr -> ends_with x (y :: tr).
Proof. intros [pre ->]. exists (y :: pre). reflexivity. Qed.

Lemma ends_with_app (x : Event) (a tr : list Event) :
  ends_with x tr -> ends_with x (a ++ tr).
Proof. intros [pre ->]. exists (a ++ pre)%list. apply app_assoc. Qed.

Ltac ends_with_tac :=
  repeat lazymatch goal with
    | |- ends_with ?x [?x] => apply ends_with_one
    | |- ends_with _ (_ ++ []) => rewrite app_nil_r
    | |- ends_with _ (_ :: _ :: _) => apply ends_with_cons
    | |- ends_with _ (_ ++ _) => apply ends_with_app
    end.

(** Claim C6.  When the button reads low at boot, both peripherals answer,
    the link is up when the reset is due and the broker accepts, [setup]
    connects with the plain credentials and no last-will, publishes an
    empty retained payload to exactly eight topics (the three current and
    the three legacy discovery topics, the state topic and the
    availability topic), disconnects, and ends in a restart. *)
Theorem reset_clears_retained (b : BootEnv) (s : State) :
  button b = LOW ->
  display_begin b = true ->
  bme_begin b = true ->
  is_connected (status_reset b) = true ->
  reset_connect_code b = 0 ->
  wire (trace (setup b s))
  = (EvConnect DEVICE_NAME MQTT_USER MQTT_PASSWORD None 0
       :: map (fun t => EvPublish t EmptyString true) reset_topics
       ++ [EvDisconnect])%list
  /\ NoDup reset_topics
  /\ List.length reset_topics = 8%nat
  /\ value (setup b s) = Restarted
  /\ ends_with EvRestart (trace (setup b s)).
Proof.
  intros Hbtn Hdisp Hbme Hlink Hcode.
  assert (Hdup : NoDup reset_topics).
  { unfold reset_topics.
    repeat (constructor;
            [simpl; intro H;
             repeat (destruct H as [H|H]; [discriminate H|]); exact H|]).
    constructor. }
  destruct s as [h t p ot bt mt wt sent rr ses].
  unfold setup, initOled, initBME, setupWiFi, show_ip, mqtt_connect.
  rewrite Hbtn, Hdisp, Hbme, Hlink, Hcode.
  change (0 =? 0) with true.
  run_setup b.
  all: repeat split; try exact Hdup; try reflexivity.
  all: try solve [ends_with_tac].
  all: rewrite ?wire_app;
    match goal with
    | H : forallb is_idle ?l = true |- _ => rewrite (wire_idle l H)
    end; reflexivity.
Qed.

Lemma reset_clears_retained_witness :
  wire (trace (setup reset_boot boot_state))
  = (EvConnect DEVICE_NAME MQTT_USER MQTT_PASSWORD None 0
       :: map (fun t => EvPublish t EmptyString true) reset_topics
       ++ [EvDisconnect])%list
  /\ NoDup reset_topics
  /\ List.length reset_topics = 8%nat
  /\ value (setup reset_boot boot_state) = Restarted
  /\ ends_with EvRestart (trace (setup reset_boot boot_state)).
Proof.
  apply (reset_clears_retained reset_boot boot_state); reflexivity.
Defined.

(** ** Invalid readings *)

(** Claim C1 fails on the code.  The humidity channel reads NaN in an
    iteration in which all three deadlines fire on a live session: the
    display shows the error banner, and the state payload is published all
    the same, with a null humidity. *)
Lemma invalid_reading_is_published :
  isnan (readHumidity (humidity_fails 20000)) = true
  /\ display_ops (trace (loop (humidity_fails 20000) (steady 1000)))
     = error_banner
  /\ publishes (trace (loop (humidity_fails 20000) (steady 1000)))
     = [(MQTT_STATE_TOPIC,
         json_text "{'temperature':23.4,'humidity':null,'pressure':1013.2}",
         true)].
Proof. repeat split; vm_compute; reflexivity. Qed.

(** Claim C2 fails on the code.  A reading whose pressure is NaN, with
    humidity and temperature good, is drawn as the three-panel screen: the
    renderer tests humidity and temperature only. *)
Lemma pressure_nan_renders_panels :
  isnan (pressure (with_reading (F32.of_decimal 4125 2)
                                (F32.of_decimal 23449 3) S754_nan true)) = true
  /\ display_ops
       (trace (printBME (with_reading (F32.of_decimal 4125 2)
                                      (F32.of_decimal 23449 3) S754_nan true)))
     = reading_screen (F32.of_decimal 4125 2) (F32.of_decimal 23449 3) S754_nan
  /\ reading_screen (F32.of_decimal 4125 2) (F32.of_decimal 23449 3) S754_nan
     <> error_banner.
Proof. repeat split; try (vm_compute; reflexivity). discriminate. Qed.

(** ** Rounding to tenths, on examples *)

Example tenths_half_away_from_zero :
  writeFloat (tenths (F32.of_decimal 4125 2)) = "41.3"
  /\ writeFloat (tenths (F32.of_decimal 2345 2)) = "23.5"
  /\ writeFloat (tenths (F32.of_decimal (-2345) 2)) = "-23.5"
  /\ writeFloat (tenths (F32.of_decimal 101327 2)) = "1013.3"
  /\ writeFloat (tenths (F32.of_decimal 4 2)) = "0"
  /\ writeFloat (tenths S754_nan) = "null".
Proof. repeat split; vm_compute; reflexivity. Qed.

(** ** Rules for [always] *)

Lemma always_ret {A} (P : Event -> bool) (a : A) : always P (ret a).
Proof. intro s. reflexivity. Qed.

Lemma always_bind {A B} (P : Event -> bool) (m : M A) (k : A -> M B) :
  always P m -> (forall a, always P (k a)) -> always P (bind m k).
Proof.
  intros Hm Hk s. rewrite trace_bind, forallb_app, Hm, Hk. reflexivity.
Qed.

Lemma always_emit (P : Event -> bool) (ev : Event) :
  P ev = true -> always P (emit ev).
Proof. intros H s. simpl. rewrite H. reflexivity. Qed.

Lemma always_get (P : Event -> bool) : always P get.
Proof. intro s. reflexivity. Qed.

Lemma always_modify (P : Event -> bool) (f : State -> State) :
  always P (modify f).
Proof. intro s. reflexivity. Qed.

Lemma always_millis (P : Event -> bool) (t : Z) :
  P (EvMillis (wrap t)) = true -> always P (millis t).
Proof. intros H s. simpl. rewrite H. reflexivity. Qed.

Lemma always_bme_read (P : Event -> bool) (ch : Channel) (v : spec_float) :
  P (EvRead ch v) = true -> always P (bme_read ch v).
Proof. intros H s. simpl. rewrite H. reflexivity. Qed.

Lemma always_connected (P : Event -> bool) (alive : bool) :
  P EvSessionLost = true -> always P (mqtt_connected alive).
Proof.
  intros H s. unfold mqtt_connected, trace. simpl.
  destruct (session s && negb alive); simpl; rewrite ?H; reflexivity.
Qed.

Lemma always_connect (P : Event -> bool) id user pw will code :
  P (EvConnect id user pw will code) = true ->
  always P (mqtt_connect id user pw will code).
Proof. intros H s. simpl. rewrite H. reflexivity. Qed.

(** A publish whose two outcomes both pass the test. *)
Lemma always_publish (P : Event -> bool) topic payload retained :
  P (EvPublish topic payload retained) = true ->
  P (EvRefused topic payload retained) = true ->
  always P (mqtt_publish topic payload retained).
Proof.
  intros H1 H2 s. unfold mqtt_publish, trace.
  destruct (session s); [|reflexivity]. simpl.
  destruct (too_large topic payload); rewrite ?H1, ?H2; reflexivity.
Qed.

(** A publish that is known not to fit the buffer. *)
Lemma always_publish_refused (P : Event -> bool) topic payload retained :
  too_large topic payload = true ->
  P (EvRefused topic payload retained) = true ->
  always P (mqtt_publish topic payload retained).
Proof.
  intros Hl H s. unfold mqtt_publish, trace.
  destruct (session s); [|reflexivity]. simpl.
  rewrite Hl, H. reflexivity.
Qed.

Lemma always_disconnect (P : Event -> bool) :
  P EvDisconnect = true -> always P mqtt_disconnect.
Proof. intros H s. simpl. rewrite H. reflexivity. Qed.

Lemma always_explain_code (P : Event -> bool) (code : Z) :
  (forall it nl, P (EvSerial it nl) = true) -> always P (explain_code code).
Proof.
  intros H s. destruct (explain_code_serial code s) as [_ Ht].
  change (snd (explain_code code s)) with (trace (explain_code code s)) in Ht.
  induction (trace (explain_code code s)) as [|ev tr IH]; [reflexivity|].
  simpl in *. destruct ev; try discriminate. rewrite H. apply IH, Ht.
Qed.

Lemma always_wifi_wait (P : Event -> bool) (poll : nat -> wl_status)
    (remaining attempts : nat) :
  (forall it nl, P (EvSerial it nl) = true) ->
  (forall ms, P (EvDelay ms) = true) ->
  always P (wifi_wait poll remaining attempts).
Proof.
  intros Hs Hd. revert attempts.
  induction remaining as [|r IH]; intro attempts; simpl;
    destruct (is_connected (poll attempts)); try apply always_ret.
  apply always_bind; [apply always_emit, Hd|intros _].
  apply always_bind; [apply always_emit, Hs|intros _]. apply IH.
Qed.

(** One syntactic step; the side conditions are closed tests. *)
Ltac always_step :=
  lazymatch goal with
  | |- always _ (bind _ _) => apply always_bind; [|intro]
  | |- always _ (ret _) => apply always_ret
  | |- always _ (emit _) => apply always_emit; reflexivity
  | |- always _ get => apply always_get
  | |- always _ (modify _) => apply always_modify
  | |- always _ (millis _) => apply always_millis; reflexivity
  | |- always _ (bme_read _ _) => apply always_bme_read; reflexivity
  | |- always _ (mqtt_connected _) => apply always_connected; reflexivity
  | |- always _ (mqtt_connect _ _ _ _ _) => apply always_connect; reflexivity
  | |- always _ (mqtt_publish _ _ _) =>
      first [ apply always_publish; reflexivity
            | apply always_publish_refused; [vm_compute|]; reflexivity ]
  | |- always _ mqtt_disconnect => apply always_disconnect; reflexivity
  | |- always _ (explain_code _) =>
      apply always_explain_code; intros; reflexivity
  | |- always _ (wifi_wait _ _ _) =>
      apply always_wifi_wait; intros; reflexivity
  | |- always _ (if ?c then _ else _) => destruct c
  | |- always _ (match ?x with _ => _ end) => destruct x
  end.

Ltac unfold_program :=
  unfold loop, checkWiFi, maintainMQTT, mqttReconnect, publishDiscovery,
    readSensor, updateDisplay, publishState, publishSensorData, printBME,
    readBME, mqtt_loop,
    setup, initOled, initBME, setupWiFi, show_ip, resetMQTT, println_all,
    fold_right, serial_print, serial_println, display, delay.

Lemma always_run (P : Event -> bool) :
  (forall e, always P (loop e)) ->
  forall envs s, forallb P (snd (run envs s)) = true.
Proof.
  intros H envs. induction envs as [|e envs IH]; intro s; [reflexivity|].
  rewrite run_cons. cbn [snd]. rewrite forallb_app, (H e s). apply IH.
Qed.

(** ** What one iteration hands to the client *)

Lemma publish_calls_serial (tr : list Event) :
  forallb is_serial tr = true -> publish_calls tr = [].
Proof.
  induction tr as [|ev tr IH]; [reflexivity|].
  simpl. destruct ev; simpl; try discriminate. exact IH.
Qed.

Lemma checkWiFi_calls (e : LoopEnv) (s : State) :
  publish_calls (trace (checkWiFi e s)) = [].
Proof. destruct s. crunch; reflexivity. Qed.

Lemma readSensor_calls (e : LoopEnv) (s : State) :
  publish_calls (trace (readSensor e s)) = [].
Proof. destruct s. crunch; reflexivity. Qed.

Lemma updateDisplay_calls (e : LoopEnv) (s : State) :
  publish_calls (trace (updateDisplay e s)) = [].
Proof. destruct s. crunch; reflexivity. Qed.

(** On an accepted connect the announcement is sent and the three
    discovery documents are refused. *)
Lemma maintainMQTT_calls (e : LoopEnv) (s : State) :
  publish_calls (trace (maintainMQTT e s))
  = if session_opens e s
    then delivery online_publish :: map refusal discovery_round else [].
Proof.
  unfold discovery_round, session_opens.
  destruct discovery_payloads_fit as (Ht & Hh & Hp).
  rewrite <- Ht, <- Hh, <- Hp.
  destruct s as [h t p ot bt mt wt sent rr [|]]; run_maintain e;
    rewrite ?publish_calls_app;
    try match goal with
      | H : forallb is_serial ?l = true |- _ =>
          rewrite (publish_calls_serial l H)
      end;
    decide_sizes; reflexivity.
Qed.

Lemma publishState_calls (e : LoopEnv) (s : State) :
  publish_calls (trace (publishState e s))
  = if publish_due e s && (session s && alive_publish e)
    then [delivery (state_publish (cell s))] else [].
Proof.
  destruct s. unfold state_publish, reading_doc, cell.
  crunch; decide_sizes; reflexivity.
Qed.

(** The state just before the publish block. *)
Lemma before_publish (e : LoopEnv) (s : State) :
  let s4 :=
    state (updateDisplay e
      (state (readSensor e
        (state (maintainMQTT e (state (checkWiFi e s)))))))
  in cell s4 = sampled e s
     /\ publish_due e s4 = publish_due e s
     /\ session s4 = session_after e s.
Proof.
  cbv zeta.
  rewrite updateDisplay_state, readSensor_state, maintainMQTT_state,
    checkWiFi_state.
  assert (Hses : session_after e
                   (if retry_due e s
                    then set_wifiReconnectTime (wrap (millis_wifi_set e)) s
                    else s) = session_after e s)
    by (unfold session_after; destruct (retry_due e s); reflexivity).
  rewrite Hses.
  generalize (session_after e s).
  generalize (sent_after e
                (if retry_due e s
                 then set_wifiReconnectTime (wrap (millis_wifi_set e)) s
                 else s)).
  intros b1 b2. destruct s. unfold cell, sampled, fresh.
  destruct (retry_due e _); crunch; repeat split; try reflexivity;
    congruence.
Qed.

Lemma session_opens_after_checkWiFi (e : LoopEnv) (s : State) :
  session_opens e (state (checkWiFi e s)) = session_opens e s.
Proof.
  unfold session_opens, attempts_connect. rewrite checkWiFi_session.
  reflexivity.
Qed.

Lemma loop_calls (e : LoopEnv) (s : State) :
  publish_calls (trace (loop e s))
  = ((if session_opens e s
      then delivery online_publish :: map refusal discovery_round else [])
       ++ (if state_goes_out e s
           then [delivery (state_publish (sampled e s))] else []))%list.
Proof.
  rewrite loop_trace. cbv zeta.
  rewrite !publish_calls_app, checkWiFi_calls, maintainMQTT_calls,
    readSensor_calls, updateDisplay_calls, publishState_calls.
  rewrite session_opens_after_checkWiFi.
  destruct (before_publish e s) as (Hcell & Hdue & Hses).
  rewrite Hcell, Hdue, Hses. reflexivity.
Qed.

(** What an iteration sends to the broker. *)
Lemma loop_publishes (e : LoopEnv) (s : State) :
  publishes (trace (loop e s))
  = ((if session_opens e s then [online_publish] else [])
       ++ (if state_goes_out e s then [state_publish (sampled e s)] else []))%list.
Proof.
  rewrite <- publishes_calls, loop_calls.
  destruct (session_opens e s), (state_goes_out e s); reflexivity.
Qed.

(** What the client refuses of it. *)
Lemma loop_refused (e : LoopEnv) (s : State) :
  refused (trace (loop e s))
  = if session_opens e s then discovery_round else [].
Proof.
  rewrite <- refused_calls, loop_calls.
  destruct (session_opens e s), (state_goes_out e s); reflexivity.
Qed.

Lemma loop_handed_over (e : LoopEnv) (s : State) :
  handed_over (trace (loop e s))
  = ((if session_opens e s then online_publish :: discovery_round else [])
       ++ (if state_goes_out e s then [state_publish (sampled e s)] else []))%list.
Proof.
  rewrite <- handed_over_calls, loop_calls.
  destruct (session_opens e s), (state_goes_out e s); reflexivity.
Qed.

Lemma session_set_session (b : bool) (s : State) :
  session (set_session b s) = b.
Proof. reflexivity. Qed.

Lemma loop_session (e : LoopEnv) (s : State) :
  session (state (loop e s))
  = if publish_due e s then session_after e s && alive_publish e
    else session_after e s.
Proof.
  rewrite loop_state, publishState_state.
  destruct (before_publish e s) as (_ & Hdue & Hses).
  rewrite Hdue. destruct (publish_due e s); [|exact Hses].
  rewrite session_set_session, Hses. reflexivity.
Qed.

Lemma loop_attempts (e : LoopEnv) (s : State) :
  count is_attempt (trace (loop e s))
  = if attempts_connect e s then 1%nat else 0%nat.
Proof.
  rewrite loop_trace. cbv zeta.
  rewrite !count_app, checkWiFi_attempts, maintainMQTT_attempts,
    readSensor_attempts, updateDisplay_attempts, publishState_attempts.
  unfold attempts_connect. rewrite checkWiFi_session.
  destruct (_ && _ && _); reflexivity.
Qed.

(** ** Discovery on a session *)

Lemma loop_not_discovery (e : LoopEnv) : always not_discovery (loop e).
Proof. unfold_program. repeat always_step. Qed.

Lemma count_none (P f : Event -> bool) (tr : list Event) :
  (forall ev, P ev = true -> f ev = false) ->
  forallb P tr = true -> count f tr = 0%nat.
Proof.
  intros Hf. induction tr as [|ev tr IH]; [reflexivity|].
  simpl. intro H. apply andb_prop in H as [Hev Htr].
  rewrite count_cons, (Hf ev Hev). apply IH, Htr.
Qed.

Lemma not_discovery_topic (key : string) (ev : Event) :
  In key ["temperature"; "humidity"; "pressure"] ->
  not_discovery ev = true -> is_publish_to (config_topic key) ev = false.
Proof.
  intros Hkey. destruct ev; try reflexivity.
  unfold not_discovery, is_publish_to. intro H.
  apply negb_true_iff in H. apply orb_false_iff in H as [H Hp].
  apply orb_false_iff in H as [Ht Hh].
  destruct Hkey as [<-|[<-|[<-|[]]]]; assumption.
Qed.

Lemma run_sends_no_discovery (key : string) (envs : list LoopEnv)
    (s : State) :
  In key ["temperature"; "humidity"; "pressure"] ->
  count (is_publish_to (config_topic key)) (snd (run envs s)) = 0%nat.
Proof.
  intro Hkey. apply (count_none not_discovery).
  - intros ev. apply not_discovery_topic, Hkey.
  - apply always_run, loop_not_discovery.
Qed.

(** Claim C3 fails on the code.  The code does what the claim describes: on
    every accepted connect it hands to the broker client the retained
    online announcement and then one retained, non-empty discovery
    document per sub-sensor, before any state payload.  But the three
    documents make packets of 558, 541 and 543 bytes, and the client's
    buffer, which [setup] sizes for them, holds 512: the client refuses all
    three, the sketch does not look at the result and sets the latch.  So
    in no run does a discovery topic receive a publish; on a cold start the
    broker sees the connect, the announcement and the state payload, and
    the session stays live with the latch set, so the documents are not
    handed over again. *)
Theorem discovery_refused_by_client :
  (MQTT_BUFFER = 512
   /\ packet_size (config_topic "temperature") (writeJson temperature_config)
      = 558
   /\ packet_size (config_topic "humidity") (writeJson humidity_config) = 541
   /\ packet_size (config_topic "pressure") (writeJson pressure_config) = 543)
  /\ (forall e s,
        handed_over (trace (loop e s))
        = ((if session_opens e s then online_publish :: discovery_round
            else [])
           ++ (if state_goes_out e s then [state_publish (sampled e s)]
               else []))%list
        /\ refused (trace (loop e s))
           = (if session_opens e s then discovery_round else []))
  /\ (forall envs s,
        count (is_publish_to (config_topic "temperature")) (snd (run envs s))
        = 0%nat
        /\ count (is_publish_to (config_topic "humidity")) (snd (run envs s))
           = 0%nat
        /\ count (is_publish_to (config_topic "pressure")) (snd (run envs s))
           = 0%nat)
  /\ wire (trace (loop cold_start boot_state))
     = [ EvConnect DEVICE_NAME MQTT_USER MQTT_PASSWORD (Some last_will) 0;
         EvPublish MQTT_AVAILABILITY_TOPIC "online" true;
         EvPublish MQTT_STATE_TOPIC
           (json_text "{'temperature':23.4,'humidity':41.3,'pressure':1013.2}")
           true ]
  /\ refused (trace (loop cold_start boot_state)) = discovery_round
  /\ session (state (loop cold_start boot_state)) = true
  /\ mqttDiscoverySent (state (loop cold_start boot_state)) = true.
Proof.
  split; [|split; [|split; [|split; [|split; [|split]]]]].
  - split; [reflexivity|apply discovery_packet_sizes].
  - intros e s. split; [apply loop_handed_over|apply loop_refused].
  - intros envs s.
    split; [|split]; apply run_sends_no_discovery; simpl; tauto.
  - vm_compute. reflexivity.
  - vm_compute. reflexivity.
  - vm_compute. reflexivity.
  - vm_compute. reflexivity.
Qed.

(** * Further properties of the code *)

(** ** Tests every event of a block passes *)

Lemma loop_publish_ok (e : LoopEnv) : always publish_ok (loop e).
Proof. unfold_program. repeat always_step. Qed.

Lemma setup_publish_ok (b : BootEnv) : always publish_ok (setup b).
Proof. unfold_program. repeat always_step. Qed.

Lemma loop_runtime_only (e : LoopEnv) : always runtime_event (loop e).
Proof. unfold_program. repeat always_step. Qed.

(** ** What one iteration publishes *)

(** Extra X11.  The publish calls of one iteration of the loop, in order,
    and what the client makes of them.  On an accepted connect the sketch
    hands over the online announcement and the three discovery documents;
    then, when the state deadline is due and the session is live after the
    connection block and still alive at the publish, one state payload.
    Of these the announcement and the state payload are sent, and the
    three documents are refused as too large for the client's 512-byte
    buffer.  The payload is built from the reading the sample block left
    in the cell, the same reading the display block draws from in this
    iteration. *)
Theorem iteration_publish_calls (e : LoopEnv) (s : State) :
  let reading := if sample_due e s then fresh e else cell s in
  let opens :=
    is_connected (status_loop e)
    && negb (session s && alive_loop e)
    && is_connected (status_reconnect e)
    && (connect_code e =? 0) in
  let state_out :=
    if publish_due e s && (session_after e s && alive_publish e)
    then [(MQTT_STATE_TOPIC, serializeJson (reading_doc reading) 128, true)]
    else [] in
  handed_over (trace (loop e s))
  = ((if opens
      then (MQTT_AVAILABILITY_TOPIC, "online", true) :: discovery_round
      else []) ++ state_out)%list
  /\ publishes (trace (loop e s))
     = ((if opens then [(MQTT_AVAILABILITY_TOPIC, "online", true)] else [])
        ++ state_out)%list
  /\ refused (trace (loop e s)) = (if opens then discovery_round else [])
  /\ display_ops (trace (loop e s))
     = (if display_due e s then screen_of reading else []).
Proof.
  cbv zeta.
  split; [apply loop_handed_over|].
  split; [apply loop_publishes|].
  split; [apply loop_refused|apply loop_display].
Qed.

(** Extra X12.  Cold start.  From a state without session whose sample and
    publish deadlines never fired, an iteration with the link up, the
    broker accepting and the transport staying alive hands to the client,
    in this order and all in that one iteration: online, the three
    discovery documents, and the state payload of the reading just
    sampled.  The broker receives the first and the last; the three
    documents are refused by the client. *)
Theorem cold_start_order (e : LoopEnv) (s : State) :
  session s = false -> bmeTime s = 0 -> mqttTime s = 0 ->
  is_connected (status_loop e) = true ->
  is_connected (status_reconnect e) = true ->
  connect_code e = 0 ->
  alive_pump e = true -> alive_publish e = true ->
  handed_over (trace (loop e s))
  = (online_publish :: discovery_round ++ [state_publish (fresh e)])%list
  /\ publishes (trace (loop e s))
     = [online_publish; state_publish (fresh e)]
  /\ refused (trace (loop e s)) = discovery_round.
Proof.
  intros Hs Hb Hm Hl Hr Hc Hp Ha.
  rewrite loop_handed_over, loop_publishes, loop_refused.
  unfold session_opens, attempts_connect, state_goes_out, session_after,
    sampled, sample_due, publish_due.
  rewrite Hs, Hb, Hm, Hl, Hr, Hc, Hp, Ha. simpl andb.
  rewrite !orb_true_r. split; [|split]; reflexivity.
Qed.

Lemma cold_start_order_witness :
  handed_over (trace (loop cold_start boot_state))
  = (online_publish :: discovery_round
       ++ [state_publish (fresh cold_start)])%list
  /\ publishes (trace (loop cold_start boot_state))
     = [online_publish; state_publish (fresh cold_start)]
  /\ refused (trace (loop cold_start boot_state)) = discovery_round.
Proof.
  apply (cold_start_order cold_start boot_state); reflexivity.
Defined.


(** ** A broker that never accepts *)

Lemma rejected_iteration (e : LoopEnv) (s : State) :
  session s = false -> rejected e = true ->
  publishes (trace (loop e s)) = []
  /\ session (state (loop e s)) = false
  /\ count is_attempt (trace (loop e s))
     = if link_up e then 1%nat else 0%nat.
Proof.
  intros Hs Hr. unfold rejected in Hr. apply negb_true_iff in Hr.
  assert (Hafter : session_after e s = false).
  { unfold session_after. rewrite Hs, Hr. simpl.
    destruct (is_connected (status_loop e)); [|reflexivity].
    rewrite andb_false_r. reflexivity. }
  repeat split.
  - rewrite loop_publishes. unfold session_opens, state_goes_out.
    rewrite Hr, Hafter, andb_false_r, andb_false_r. reflexivity.
  - rewrite loop_session, Hafter. destruct (publish_due e s); reflexivity.
  - rewrite loop_attempts. unfold attempts_connect, link_up. rewrite Hs.
    simpl. rewrite andb_true_r. reflexivity.
Qed.

(** Extra X13.  While the broker rejects every connect (wrong credentials, say),
    a node that starts without session never publishes anything and never
    holds a session, and it asks again in every iteration in which the
    link is up. *)
Theorem rejected_broker_sees_no_publish (envs : list LoopEnv) (s : State) :
  session s = false ->
  forallb rejected envs = true ->
  publishes (snd (run envs s)) = []
  /\ session (fst (run envs s)) = false
  /\ count is_attempt (snd (run envs s))
     = List.length (filter link_up envs).
Proof.
  revert s. induction envs as [|e envs IH]; intros s Hs Hr.
  - repeat split. exact Hs.
  - simpl in Hr. apply andb_prop in Hr as [He Hr].
    destruct (rejected_iteration e s Hs He) as (Hp & Hs' & Hc).
    destruct (IH (state (loop e s)) Hs' Hr) as (IHp & IHs & IHc).
    rewrite run_cons. cbn [fst snd].
    rewrite publishes_app, count_app, Hp, IHp, Hc, IHc.
    repeat split; [exact IHs|].
    simpl. destruct (link_up e); reflexivity.
Qed.

Lemma rejected_broker_sees_no_publish_witness :
  publishes (snd (run [rejecting 5000; offline 5010; rejecting 5020]
                      boot_state)) = []
  /\ session (fst (run [rejecting 5000; offline 5010; rejecting 5020]
                       boot_state)) = false
  /\ count is_attempt (snd (run [rejecting 5000; offline 5010; rejecting 5020]
                                boot_state))
     = List.length (filter link_up
                      [rejecting 5000; offline 5010; rejecting 5020]).
Proof.
  apply (rejected_broker_sees_no_publish
           [rejecting 5000; offline 5010; rejecting 5020] boot_state);
    reflexivity.
Defined.

(** ** Waiting for the link at boot *)

Lemma wifi_wait_delays (poll : nat -> wl_status) (remaining attempts : nat)
    (s : State) :
  delays (trace (wifi_wait poll remaining attempts s))
  = repeat 500
      (leading (fun j => negb (is_connected (poll j))) (seq attempts remaining)).
Proof.
  revert attempts s. induction remaining as [|r IH]; intros attempts s.
  - simpl. destruct (is_connected (poll attempts)); reflexivity.
  - cbn [seq leading].
    destruct (is_connected (poll attempts)) eqn:E.
    + cbn [wifi_wait]. rewrite E. reflexivity.
    + assert (Hstep : trace (wifi_wait poll (S r) attempts s)
                      = EvDelay 500 :: EvSerial (Text ".") false
                          :: trace (wifi_wait poll r (S attempts) s))
        by (cbn [wifi_wait]; rewrite E; reflexivity).
      rewrite Hstep. cbn [negb delays flat_map app repeat].
      f_equal. apply IH.
Qed.

Lemma wifi_wait_links (poll : nat -> wl_status) (remaining attempts : nat)
    (s : State) :
  link_commands (trace (wifi_wait poll remaining attempts s)) = [].
Proof.
  destruct (wifi_wait_idle poll remaining attempts s) as [_ H].
  change (snd (wifi_wait poll remaining attempts s))
    with (trace (wifi_wait poll remaining attempts s)) in H.
  induction (trace (wifi_wait poll remaining attempts s)) as [|ev tr IH];
    [reflexivity|].
  simpl in H. destruct ev; try discriminate; apply IH, H.
Qed.

Lemma leading_le (f : nat -> bool) (l : list nat) :
  (leading f l <= List.length l)%nat.
Proof.
  induction l as [|j l IH]; simpl; [lia|]. destruct (f j); lia.
Qed.

Lemma sum_repeat (x : Z) (n : nat) :
  fold_right Z.add 0 (repeat x n) = x * Z.of_nat n.
Proof.
  induction n as [|n IH]; [simpl; lia|].
  cbn [repeat fold_right]. rewrite IH. lia.
Qed.

(** Extra X1.  [setupWiFi] asks for the link once, then sleeps 500 ms after each
    poll that finds the link down, stops at the first poll that finds it
    up and gives up after twenty: it sleeps 500 ms times the number of
    failed polls, never more than 10000 ms, and changes no variable. *)
Theorem setupWiFi_polling (b : BootEnv) (s : State) :
  delays (trace (setupWiFi b s)) = repeat 500 (failed_polls b)
  /\ (failed_polls b <= 20)%nat
  /\ total_sleep (trace (setupWiFi b s)) = 500 * Z.of_nat (failed_polls b)
  /\ total_sleep (trace (setupWiFi b s)) <= 10000
  /\ link_commands (trace (setupWiFi b s))
     = [EvWifiMode; EvWifiBegin WIFI_SSID WIFI_PASSWORD]
  /\ state (setupWiFi b s) = s.
Proof.
  assert (Hd : delays (trace (setupWiFi b s)) = repeat 500 (failed_polls b)).
  { unfold setupWiFi. rewrite !trace_bind, !delays_app, wifi_wait_delays.
    destruct (wifi_wait_idle (status_poll b) 20 0 s) as [Hs _].
    cbv [serial_print serial_println emit value state trace fst snd] in *.
    destruct (is_connected (status_setupWiFi b)); simpl;
      rewrite app_nil_r; reflexivity. }
  assert (Hn : (failed_polls b <= 20)%nat).
  { unfold failed_polls.
    pose proof (leading_le (fun j => negb (is_connected (status_poll b j)))
                           (seq 0 20)) as H.
    rewrite length_seq in H. exact H. }
  assert (Ht : total_sleep (trace (setupWiFi b s))
               = 500 * Z.of_nat (failed_polls b))
    by (unfold total_sleep; rewrite Hd; apply sum_repeat).
  repeat split; try assumption.
  - rewrite Ht. lia.
  - unfold setupWiFi, link_commands. rewrite !trace_bind, !filter_app.
    fold (link_commands (trace (wifi_wait (status_poll b) 20 0
      (state (emit (EvWifiBegin WIFI_SSID WIFI_PASSWORD)
        (state (emit EvWifiMode
          (state (serial_print (Text "Connecting to WiFi") s))))))))).
    rewrite wifi_wait_links.
    destruct (is_connected (status_setupWiFi b)); reflexivity.
  - unfold setupWiFi. rewrite !state_bind.
    destruct (wifi_wait_idle (status_poll b) 20 0 s) as [Hs _].
    destruct (is_connected (status_setupWiFi b));
      cbv [serial_print serial_println emit bind value state trace fst snd]
        in *; exact Hs.
Qed.

(** ** The ways [setup] ends *)

Lemma link_commands_app (a b : list Event) :
  link_commands (a ++ b) = (link_commands a ++ link_commands b)%list.
Proof. apply filter_app. Qed.

(** Find an event in a trace written out as appended pieces. *)
Ltac pick_event :=
  lazymatch goal with
  | |- _ = _ => reflexivity
  | |- _ \/ _ => first [left; pick_event | right; pick_event]
  end.

(** Extra X2.  A missing peripheral is fatal.  When the display does not answer,
    or the display does and the sensor does not, [setup] ends in the
    endless loop of the init function: the link is never asked for, the
    broker never contacted, and the node never restarts by itself. *)
Theorem missing_peripheral_halts (b : BootEnv) (s : State) :
  display_begin b && bme_begin b = false ->
  value (setup b s) = Halted
  /\ link_commands (trace (setup b s)) = []
  /\ wire (trace (setup b s)) = []
  /\ count is_restart (trace (setup b s)) = 0%nat.
Proof.
  intro H. destruct s as [h t p ot bt mt wt sent rr ses].
  unfold setup, initOled, initBME.
  destruct (display_begin b); [destruct (bme_begin b); [discriminate|]|];
    destruct (button b); unfold_boot; repeat split; reflexivity.
Qed.

Lemma missing_peripheral_halts_witness :
  value (setup (mkBootEnv HIGH true false (fun _ => WL_CONNECTED)
                          WL_CONNECTED WL_CONNECTED 0 WL_CONNECTED)
               boot_state) = Halted.
Proof.
  apply (missing_peripheral_halts
           (mkBootEnv HIGH true false (fun _ => WL_CONNECTED)
                      WL_CONNECTED WL_CONNECTED 0 WL_CONNECTED)
           boot_state).
  reflexivity.
Defined.

(** Extra X3.  Without a reset request the boot leaves the broker alone: when
    the button reads high and no request is pending, or when the link is
    down at the moment the reset is due, [setup] sends nothing to the
    broker and does not restart the node. *)
Theorem setup_without_reset (b : BootEnv) (s : State) :
  mqttResetRequested s = false ->
  button b = HIGH \/ is_connected (status_reset b) = false ->
  wire (trace (setup b s)) = []
  /\ value (setup b s) <> Restarted
  /\ session (state (setup b s)) = session s.
Proof.
  intros Hrr H. destruct s as [h t p ot bt mt wt sent rr ses].
  simpl in Hrr. subst rr.
  unfold setup, initOled, initBME, setupWiFi, show_ip, mqtt_connect.
  destruct H as [H|H]; rewrite H; decide_boot b.
  all: cbv [println_all fold_right
            bind ret get modify emit serial_print serial_println display delay
            value state trace fst snd
            set_mqttResetRequested set_session
            humid tempC pressure oledTime bmeTime mqttTime wifiReconnectTime
            mqttDiscoverySent mqttResetRequested session
            negb andb orb];
    forget_wait; unfold_boot.
  all: repeat split; try reflexivity; try discriminate.
  all: rewrite ?wire_app;
    match goal with
    | H : forallb is_idle ?l = true |- _ => rewrite (wire_idle l H)
    end; reflexivity.
Qed.

Lemma setup_without_reset_witness :
  wire (trace (setup (mkBootEnv HIGH true true (fun _ => WL_CONNECTED)
                                WL_CONNECTED WL_CONNECTED 0 WL_CONNECTED)
                     boot_state)) = [].
Proof.
  apply (setup_without_reset
           (mkBootEnv HIGH true true (fun _ => WL_CONNECTED)
                      WL_CONNECTED WL_CONNECTED 0 WL_CONNECTED)
           boot_state);
    [reflexivity | left; reflexivity].
Defined.

Lemma count_idle (f : Event -> bool) (tr : list Event) :
  (forall it nl, f (EvSerial it nl) = false) ->
  (forall ms, f (EvDelay ms) = false) ->
  forallb is_idle tr = true -> count f tr = 0%nat.
Proof.
  intros Hs Hd. induction tr as [|ev tr IH]; [reflexivity|].
  simpl. destruct ev; simpl; try discriminate; intro H;
    rewrite count_cons, ?Hs, ?Hd; apply IH, H.
Qed.

(** Forget the polls of [setupWiFi], keeping how long they slept. *)
Ltac forget_wait_keep_delays :=
  repeat match goal with
    | |- context [wifi_wait ?p ?r ?a ?s] =>
        let Hs := fresh "Hs" in
        let Ht := fresh "Ht" in
        let Hd := fresh "Hd" in
        destruct (wifi_wait_idle p r a s) as [Hs Ht];
        pose proof (wifi_wait_delays p r a s) as Hd;
        destruct (wifi_wait p r a s) as [[? ?] ?];
        cbv [fst snd trace] in Hs, Ht, Hd; subst
    end.

(** Extra X4.  A reset the broker turns down.  With the button low, both
    peripherals present and the link up, a rejected connect publishes
    nothing: [setup] shows the failure screen, sleeps 5000 ms on it, drops
    the request and goes on into the runtime loop without session and
    without restarting.  The boot sleeps 4000 ms for the peripherals,
    500 ms per failed poll of the link, these 5000 ms, and 2000 ms more
    when it shows the address. *)
Theorem rejected_reset_falls_through (b : BootEnv) (s : State) :
  button b = LOW ->
  display_begin b = true ->
  bme_begin b = true ->
  is_connected (status_reset b) = true ->
  (reset_connect_code b =? 0) = false ->
  wire (trace (setup b s))
  = [EvConnect DEVICE_NAME MQTT_USER MQTT_PASSWORD None (reset_connect_code b)]
  /\ value (setup b s) = Running
  /\ mqttResetRequested (state (setup b s)) = false
  /\ session (state (setup b s)) = false
  /\ count (shows "FAILED!") (trace (setup b s)) = 1%nat
  /\ count is_restart (trace (setup b s)) = 0%nat
  /\ delays (trace (setup b s))
     = ([1000; 1000; 1000; 1000] ++ repeat 500 (failed_polls b)
          ++ 5000 :: (if is_connected (status_banner b) then [2000] else []))%list.
Proof.
  intros Hbtn Hdisp Hbme Hlink Hcode.
  destruct s as [h t p ot bt mt wt sent rr ses].
  unfold setup, initOled, initBME, setupWiFi, show_ip, mqtt_connect.
  rewrite Hbtn, Hdisp, Hbme, Hlink, Hcode.
  decide_boot b.
  all: cbv [println_all fold_right
            bind ret get modify emit serial_print serial_println display delay
            value state trace fst snd
            set_mqttResetRequested set_session
            humid tempC pressure oledTime bmeTime mqttTime wifiReconnectTime
            mqttDiscoverySent mqttResetRequested session
            negb andb orb];
    forget_wait_keep_delays; unfold_boot.
  all: repeat split; try reflexivity.
  all: try (rewrite ?wire_app;
            match goal with
            | H : forallb is_idle ?l = true |- _ => rewrite (wire_idle l H)
            end; reflexivity).
  all: try (rewrite ?count_app;
            match goal with
            | H : forallb is_idle ?l = true |- _ =>
                rewrite (count_idle _ l (fun _ _ => eq_refl)
                                    (fun _ => eq_refl) H)
            end; reflexivity).
  all: rewrite ?delays_app;
    match goal with
    | H : delays ?l = _ |- _ => rewrite H
    end;
    unfold failed_polls; cbn [delays flat_map app];
    rewrite <- ?app_assoc; reflexivity.
Qed.

Lemma rejected_reset_falls_through_witness :
  value (setup (mkBootEnv LOW true true (fun _ => WL_CONNECTED)
                          WL_CONNECTED WL_CONNECTED 4 WL_CONNECTED)
               boot_state) = Running.
Proof.
  apply (rejected_reset_falls_through
           (mkBootEnv LOW true true (fun _ => WL_CONNECTED)
                      WL_CONNECTED WL_CONNECTED 4 WL_CONNECTED)
           boot_state); reflexivity.
Defined.

(** ** What the node never does *)

(** Extra X6.  Every message the node publishes, during [setup] or in any run of
    the loop, is retained and goes to one of the eight topics of the
    device: the three discovery topics, the three legacy ones, the state
    topic and the availability topic. *)
Theorem every_publish_retained_and_known (b : BootEnv) (envs : list LoopEnv)
    (s s' : State) (topic payload : string) (retained : bool) :
  In (EvPublish topic payload retained)
     (trace (setup b s) ++ snd (run envs s')) ->
  retained = true /\ In topic reset_topics.
Proof.
  intro H.
  assert (Hok : publish_ok (EvPublish topic payload retained) = true).
  { apply in_app_or in H as [H|H].
    - pose proof (setup_publish_ok b s) as Hall.
      rewrite forallb_forall in Hall. apply Hall, H.
    - pose proof (always_run publish_ok loop_publish_ok envs s') as Hall.
      rewrite forallb_forall in Hall. apply Hall, H. }
  simpl in Hok. apply andb_prop in Hok as [Ht Hr]. split; [exact Hr|].
  unfold topic_known in Ht. apply existsb_exists in Ht as (t' & Hin & Heq).
  apply String.eqb_eq in Heq. subst t'. exact Hin.
Qed.

Lemma every_publish_retained_and_known_witness :
  true = true /\ In MQTT_STATE_TOPIC reset_topics.
Proof.
  apply (every_publish_retained_and_known
           reset_boot [] boot_state boot_state
           MQTT_STATE_TOPIC EmptyString true).
  vm_compute.
  repeat match goal with
    | |- _ \/ _ => first [left; reflexivity | right]
    end.
Defined.

(** Extra X7.  The runtime loop never does what belongs to the boot: in any run
    it never closes the broker session, never restarts the node and never
    configures pins, serial port, link mode, sensor or broker client.  A
    session therefore ends only when the transport is lost. *)
Theorem loop_never_reconfigures (envs : list LoopEnv) (s : State)
    (ev : Event) :
  In ev (snd (run envs s)) ->
  boot_only ev = false /\ ev <> EvDisconnect /\ ev <> EvRestart.
Proof.
  intro H.
  pose proof (always_run runtime_event loop_runtime_only envs s) as Hall.
  rewrite forallb_forall in Hall. apply Hall in H.
  unfold runtime_event in H. apply negb_true_iff in H.
  repeat split; [exact H| |]; intros ->; discriminate H.
Qed.

Lemma loop_never_reconfigures_witness :
  boot_only EvPump = false /\ EvPump <> EvDisconnect /\ EvPump <> EvRestart.
Proof.
  apply (loop_never_reconfigures
           [calm 5000 (F32.of_decimal 4125 2) (F32.of_decimal 23449 3)
                 (F32.of_decimal 1013249 1)] boot_state EvPump).
  vm_compute.
  repeat match goal with
    | |- _ \/ _ => first [left; reflexivity | right]
    end.
Defined.

(** ** Deadlines over more than one iteration *)

Lemma loop_deadlines (e : LoopEnv) (s : State) :
  bmeTime (state (loop e s))
  = (if sample_due e s then wrap (millis_bme_set e) else bmeTime s)
  /\ oledTime (state (loop e s))
     = (if display_due e s then wrap (millis_oled_set e) else oledTime s)
  /\ mqttTime (state (loop e s))
     = (if publish_due e s then wrap (millis_mqtt_set e) else mqttTime s)
  /\ wifiReconnectTime (state (loop e s))
     = (if retry_due e s then wrap (millis_wifi_set e)
        else wifiReconnectTime s).
Proof.
  rewrite loop_state, publishState_state, updateDisplay_state,
    readSensor_state, maintainMQTT_state, checkWiFi_state.
  generalize (session_after e
                (if retry_due e s
                 then set_wifiReconnectTime (wrap (millis_wifi_set e)) s
                 else s)).
  generalize (sent_after e
                (if retry_due e s
                 then set_wifiReconnectTime (wrap (millis_wifi_set e)) s
                 else s)).
  intros b1 b2. destruct s.
  destruct (retry_due e _) eqn:Er; crunch; repeat split;
    try reflexivity; congruence.
Qed.

Lemma usub_elapsed (t0 d : Z) :
  0 <= d < 2 ^ 32 -> usub (wrap (t0 + d)) t0 = d.
Proof.
  intro Hd. unfold usub, wrap, wB.
  rewrite Zminus_mod_idemp_l.
  replace (t0 + d - t0) with d by lia.
  apply Z.mod_small. exact Hd.
Qed.

(** Extra X14.  The due-checks measure elapsed time correctly across the wrap of
    the 32-bit millisecond counter.  If a loop deadline is not zero and the
    clock stands [d] ms after it, with [d] below 2^32, the block fires
    exactly when [d] has reached its period, whether or not the counter
    wrapped in between; the same holds for the link-retry cooldown while
    the link is down. *)
Theorem deadlines_count_across_wrap (e : LoopEnv) (s : State)
    (d1 d2 d3 d4 : Z) :
  bmeTime s <> 0 -> oledTime s <> 0 -> mqttTime s <> 0 ->
  0 <= d1 < 2 ^ 32 -> 0 <= d2 < 2 ^ 32 ->
  0 <= d3 < 2 ^ 32 -> 0 <= d4 < 2 ^ 32 ->
  millis_bme_test e = bmeTime s + d1 ->
  millis_oled_test e = oledTime s + d2 ->
  millis_mqtt_test e = mqttTime s + d3 ->
  millis_wifi_test e = wifiReconnectTime s + d4 ->
  bmeTime (state (loop e s))
  = (if bmeDelay <=? d1 then wrap (millis_bme_set e) else bmeTime s)
  /\ oledTime (state (loop e s))
     = (if oledDelay <=? d2 then wrap (millis_oled_set e) else oledTime s)
  /\ mqttTime (state (loop e s))
     = (if mqttDelay <=? d3 then wrap (millis_mqtt_set e) else mqttTime s)
  /\ wifiReconnectTime (state (loop e s))
     = (if negb (is_connected (status_checkWiFi e))
           && (wifiReconnectDelay <=? d4)
        then wrap (millis_wifi_set e) else wifiReconnectTime s).
Proof.
  intros Hb Ho Hm H1 H2 H3 H4 E1 E2 E3 E4.
  destruct (loop_deadlines e s) as (Lb & Lo & Lm & Lw).
  rewrite Lb, Lo, Lm, Lw.
  unfold sample_due, display_due, publish_due, retry_due.
  rewrite E1, E2, E3, E4, !usub_elapsed by assumption.
  apply Z.eqb_neq in Hb, Ho, Hm. rewrite Hb, Ho, Hm, !orb_false_r.
  repeat split; reflexivity.
Qed.

Lemma deadlines_count_across_wrap_witness :
  bmeTime (state (loop after_wrap before_wrap)) = 50
  /\ oledTime (state (loop after_wrap before_wrap)) = 2 ^ 32 - 100
  /\ mqttTime (state (loop after_wrap before_wrap)) = 2 ^ 32 - 100
  /\ wifiReconnectTime (state (loop after_wrap before_wrap)) = 2 ^ 32 - 100.
Proof.
  apply (deadlines_count_across_wrap after_wrap before_wrap 150 150 150 150);
    first [ reflexivity | lia | vm_compute; discriminate
          | split; vm_compute; first [reflexivity | discriminate] ].
Defined.

Lemma link_commands_serial (tr : list Event) :
  forallb is_serial tr = true -> link_commands tr = [].
Proof.
  induction tr as [|ev tr IH]; [reflexivity|].
  simpl. destruct ev; simpl; try discriminate. exact IH.
Qed.

Lemma checkWiFi_links (e : LoopEnv) (s : State) :
  link_commands (trace (checkWiFi e s))
  = if retry_due e s then [EvWifiDisconnect; EvWifiBegin WIFI_SSID WIFI_PASSWORD]
    else [].
Proof. destruct s. crunch; reflexivity. Qed.

Lemma readSensor_links (e : LoopEnv) (s : State) :
  link_commands (trace (readSensor e s)) = [].
Proof. destruct s. crunch; reflexivity. Qed.

Lemma updateDisplay_links (e : LoopEnv) (s : State) :
  link_commands (trace (updateDisplay e s)) = [].
Proof. destruct s. crunch; reflexivity. Qed.

Lemma publishState_links (e : LoopEnv) (s : State) :
  link_commands (trace (publishState e s)) = [].
Proof. destruct s. crunch; reflexivity. Qed.

Lemma maintainMQTT_links (e : LoopEnv) (s : State) :
  link_commands (trace (maintainMQTT e s)) = [].
Proof.
  destruct s as [h t p ot bt mt wt sent rr [|]]; run_maintain e;
    rewrite ?link_commands_app;
    try match goal with
      | H : forallb is_serial ?l = true |- _ =>
          rewrite (link_commands_serial l H)
      end;
    reflexivity.
Qed.

Lemma loop_links (e : LoopEnv) (s : State) :
  link_commands (trace (loop e s))
  = if retry_due e s then [EvWifiDisconnect; EvWifiBegin WIFI_SSID WIFI_PASSWORD]
    else [].
Proof.
  rewrite loop_trace. cbv zeta.
  rewrite !link_commands_app, checkWiFi_links, maintainMQTT_links,
    readSensor_links, updateDisplay_links, publishState_links.
  rewrite !app_nil_r. reflexivity.
Qed.

Lemma loop_state_publishes (e : LoopEnv) (s : State) :
  state_publishes (trace (loop e s))
  = if state_goes_out e s then [state_publish (sampled e s)] else [].
Proof.
  unfold state_publishes. rewrite loop_publishes, filter_app.
  assert (Hnone : filter (fun m => String.eqb (fst (fst m)) MQTT_STATE_TOPIC)
                    (if session_opens e s then [online_publish] else []) = [])
    by (destruct (session_opens e s); reflexivity).
  rewrite Hnone. destruct (state_goes_out e s); reflexivity.
Qed.

Lemma within_elapsed (period t1 : Z) (test : LoopEnv -> Z) (e : LoopEnv) :
  0 < period <= 2 ^ 32 ->
  within period t1 test e = true ->
  (period <=? usub (wrap (test e)) t1) = false.
Proof.
  intros Hp H. unfold within in H. apply andb_prop in H as [H1 H2].
  apply Z.leb_le in H1. apply Z.ltb_lt in H2.
  replace (test e) with (t1 + (test e - t1)) by lia.
  rewrite usub_elapsed by lia. apply Z.leb_gt. lia.
Qed.

Lemma quiet_link_run (t1 : Z) (envs : list LoopEnv) (s : State) :
  wifiReconnectTime s = t1 ->
  forallb (within wifiReconnectDelay t1 millis_wifi_test) envs = true ->
  link_commands (snd (run envs s)) = [].
Proof.
  revert s. induction envs as [|e envs IH]; intros s Hs H; [reflexivity|].
  simpl in H. apply andb_prop in H as [He H].
  assert (Hdue : retry_due e s = false).
  { unfold retry_due. rewrite Hs.
    rewrite (within_elapsed wifiReconnectDelay t1 millis_wifi_test e);
      [apply andb_false_r | unfold wifiReconnectDelay; lia | exact He]. }
  rewrite run_cons. cbn [snd]. rewrite link_commands_app, loop_links, Hdue.
  apply IH; [|exact H].
  destruct (loop_deadlines e s) as (_ & _ & _ & Lw).
  rewrite Lw, Hdue. exact Hs.
Qed.

(** Extra X16.  Re-association of the link is rate-limited.  After an iteration
    in which [checkWiFi] asks for the link again, no later iteration asks
    again as long as its clock check reads less than 30000 ms after the
    clock value stored at that request, however long the link stays
    down. *)
Theorem link_retry_rate_limited (e1 : LoopEnv) (envs : list LoopEnv)
    (s : State) :
  link_commands (trace (loop e1 s)) <> [] ->
  forallb (within wifiReconnectDelay (wrap (millis_wifi_set e1))
                  millis_wifi_test) envs = true ->
  link_commands (trace (loop e1 s))
  = [EvWifiDisconnect; EvWifiBegin WIFI_SSID WIFI_PASSWORD]
  /\ link_commands (snd (run envs (state (loop e1 s)))) = [].
Proof.
  intros Hfired Hclose. rewrite loop_links in *.
  destruct (retry_due e1 s) eqn:Hdue; [|contradiction Hfired; reflexivity].
  split; [reflexivity|].
  apply (quiet_link_run (wrap (millis_wifi_set e1))); [|exact Hclose].
  destruct (loop_deadlines e1 s) as (_ & _ & _ & Lw).
  rewrite Lw, Hdue. reflexivity.
Qed.

Lemma link_retry_rate_limited_witness :
  link_commands (trace (loop (offline 40000) boot_state))
  = [EvWifiDisconnect; EvWifiBegin WIFI_SSID WIFI_PASSWORD]
  /\ link_commands
       (snd (run [offline 40100; offline 55000; offline 69999]
                 (state (loop (offline 40000) boot_state)))) = [].
Proof.
  apply (link_retry_rate_limited (offline 40000)
           [offline 40100; offline 55000; offline 69999] boot_state);
    [vm_compute; discriminate | reflexivity].
Defined.

Lemma quiet_state_run (t1 : Z) (envs : list LoopEnv) (s : State) :
  mqttTime s = t1 -> t1 <> 0 ->
  forallb (within mqttDelay t1 millis_mqtt_test) envs = true ->
  state_publishes (snd (run envs s)) = [].
Proof.
  intros Hs Hnz. revert s Hs.
  induction envs as [|e envs IH]; intros s Hs H; [reflexivity|].
  simpl in H. apply andb_prop in H as [He H].
  assert (Hdue : publish_due e s = false).
  { unfold publish_due. rewrite Hs.
    rewrite (within_elapsed mqttDelay t1 millis_mqtt_test e);
      [|unfold mqttDelay; lia|exact He].
    apply Z.eqb_neq in Hnz. rewrite Hnz. reflexivity. }
  rewrite run_cons. cbn [snd]. unfold state_publishes.
  rewrite publishes_app, filter_app.
  fold (state_publishes (trace (loop e s))).
  fold (state_publishes (snd (run envs (state (loop e s))))).
  rewrite loop_state_publishes. unfold state_goes_out. rewrite Hdue.
  apply IH; [|exact H].
  destruct (loop_deadlines e s) as (_ & _ & Lm & _).
  rewrite Lm, Hdue. exact Hs.
Qed.

(** Extra X17.  State payloads keep their distance.  After an iteration that
    publishes a state payload, no later iteration publishes one as long as
    its clock check reads less than 10000 ms after the clock value stored
    at that publish, provided that stored value is not zero. *)
Theorem state_publish_cadence (e1 : LoopEnv) (envs : list LoopEnv)
    (s : State) :
  state_publishes (trace (loop e1 s)) <> [] ->
  wrap (millis_mqtt_set e1) <> 0 ->
  forallb (within mqttDelay (wrap (millis_mqtt_set e1)) millis_mqtt_test)
          envs = true ->
  state_publishes (snd (run envs (state (loop e1 s)))) = [].
Proof.
  intros Hfired Hnz Hclose. rewrite loop_state_publishes in Hfired.
  destruct (state_goes_out e1 s) eqn:Hout; [|contradiction Hfired; reflexivity].
  unfold state_goes_out in Hout. apply andb_prop in Hout as [Hdue _].
  apply (quiet_state_run (wrap (millis_mqtt_set e1))); try assumption.
  destruct (loop_deadlines e1 s) as (_ & _ & Lm & _).
  rewrite Lm, Hdue. reflexivity.
Qed.

Lemma state_publish_cadence_witness :
  state_publishes
    (snd (run [calm 20050 (F32.of_decimal 4125 2) (F32.of_decimal 23449 3)
                    (F32.of_decimal 1013249 1);
               calm 29999 (F32.of_decimal 4125 2) (F32.of_decimal 23449 3)
                    (F32.of_decimal 1013249 1)]
              (state (loop (calm 20000 (F32.of_decimal 4125 2)
                                 (F32.of_decimal 23449 3)
                                 (F32.of_decimal 1013249 1))
                           (steady 1000))))) = [].
Proof.
  apply (state_publish_cadence
           (calm 20000 (F32.of_decimal 4125 2) (F32.of_decimal 23449 3)
                 (F32.of_decimal 1013249 1))
           [calm 20050 (F32.of_decimal 4125 2) (F32.of_decimal 23449 3)
                 (F32.of_decimal 1013249 1);
            calm 29999 (F32.of_decimal 4125 2) (F32.of_decimal 23449 3)
                 (F32.of_decimal 1013249 1)]
           (steady 1000));
    [vm_compute; discriminate | vm_compute; discriminate | reflexivity].
Defined.

(** Extra X15.  The zero sentinel and the wrap of the counter.  When the clock
    reads zero at the assignment of an iteration that publishes a state
    payload (the counter has just wrapped), the deadline is stored as zero
    and the publish block fires again in the next iteration whatever its
    clock reads: on a live session a second state payload follows at
    once. *)
Theorem zero_timestamp_fires_again (e e' : LoopEnv) (s : State) :
  state_publishes (trace (loop e s)) <> [] ->
  wrap (millis_mqtt_set e) = 0 ->
  mqttTime (state (loop e s)) = 0
  /\ mqttTime (state (loop e' (state (loop e s)))) = wrap (millis_mqtt_set e')
  /\ state_publishes (trace (loop e' (state (loop e s))))
     = (if session_after e' (state (loop e s)) && alive_publish e'
        then [state_publish (sampled e' (state (loop e s)))] else []).
Proof.
  intros Hfired Hzero. rewrite loop_state_publishes in Hfired.
  destruct (state_goes_out e s) eqn:Hout; [|contradiction Hfired; reflexivity].
  unfold state_goes_out in Hout. apply andb_prop in Hout as [Hdue _].
  assert (Hm : mqttTime (state (loop e s)) = 0).
  { destruct (loop_deadlines e s) as (_ & _ & Lm & _).
    rewrite Lm, Hdue. exact Hzero. }
  assert (Hdue' : publish_due e' (state (loop e s)) = true)
    by (unfold publish_due; rewrite Hm; apply orb_true_r).
  repeat split; [exact Hm| |].
  - destruct (loop_deadlines e' (state (loop e s))) as (_ & _ & Lm & _).
    rewrite Lm, Hdue'. reflexivity.
  - rewrite loop_state_publishes. unfold state_goes_out.
    rewrite Hdue'. reflexivity.
Qed.

Lemma zero_timestamp_fires_again_witness :
  mqttTime (state (loop at_wrap (steady 1000))) = 0
  /\ mqttTime (state (loop after_wrap (state (loop at_wrap (steady 1000)))))
     = wrap (millis_mqtt_set after_wrap)
  /\ state_publishes
       (trace (loop after_wrap (state (loop at_wrap (steady 1000)))))
     = (if session_after after_wrap (state (loop at_wrap (steady 1000)))
           && alive_publish after_wrap
        then [state_publish
                (sampled after_wrap (state (loop at_wrap (steady 1000))))]
        else []).
Proof.
  apply (zero_timestamp_fires_again at_wrap after_wrap (steady 1000));
    [vm_compute; discriminate | reflexivity].
Defined.

(** ** Sessions *)

Lemma loop_connect_ok (e : LoopEnv) : always connect_ok (loop e).
Proof. unfold_program. repeat always_step. Qed.

(** Extra X8.  Every connect request the loop makes carries the node's client
    id and credentials and the last will: topic availability, payload
    offline, retained, QoS 0.  (Only the reset at boot connects without a
    will.) *)
Theorem loop_connects_carry_will (envs : list LoopEnv) (s : State)
    (id user pw : string) (will : option Will) (code : Z) :
  In (EvConnect id user pw will code) (snd (run envs s)) ->
  id = DEVICE_NAME /\ user = MQTT_USER /\ pw = MQTT_PASSWORD
  /\ will = Some (mkWill MQTT_AVAILABILITY_TOPIC 0 true "offline").
Proof.
  intro H.
  pose proof (always_run connect_ok loop_connect_ok envs s) as Hall.
  rewrite forallb_forall in Hall. apply Hall in H. simpl in H.
  destruct will as [[wt wq wr wm]|]; [|discriminate].
  simpl in H.
  repeat match type of H with
         | _ && _ = true => apply andb_prop in H as [H ?]
         end.
  repeat match goal with
         | E : String.eqb _ _ = true |- _ => apply String.eqb_eq in E
         | E : (_ =? _) = true |- _ => apply Z.eqb_eq in E
         end.
  subst. repeat split.
Qed.

Lemma loop_connects_carry_will_witness :
  DEVICE_NAME = DEVICE_NAME /\ MQTT_USER = MQTT_USER
  /\ MQTT_PASSWORD = MQTT_PASSWORD
  /\ Some last_will = Some (mkWill MQTT_AVAILABILITY_TOPIC 0 true "offline").
Proof.
  apply (loop_connects_carry_will [rejecting 5000] boot_state
           DEVICE_NAME MQTT_USER MQTT_PASSWORD (Some last_will) 4).
  vm_compute.
  repeat match goal with
    | |- _ \/ _ => first [left; reflexivity | right]
    end.
Defined.

Lemma loop_sent (e : LoopEnv) (s : State) :
  mqttDiscoverySent (state (loop e s)) = sent_after e s.
Proof.
  rewrite loop_state, publishState_state, updateDisplay_state,
    readSensor_state, maintainMQTT_state, checkWiFi_state.
  assert (Hsent : sent_after e
                    (if retry_due e s
                     then set_wifiReconnectTime (wrap (millis_wifi_set e)) s
                     else s) = sent_after e s)
    by (unfold sent_after, attempts_connect;
        destruct (retry_due e s); reflexivity).
  rewrite Hsent.
  generalize (sent_after e s).
  generalize (session_after e
                (if retry_due e s
                 then set_wifiReconnectTime (wrap (millis_wifi_set e)) s
                 else s)).
  intros b1 b2. destruct s.
  destruct (retry_due e _); crunch; reflexivity.
Qed.

Lemma loop_keeps_latched (e : LoopEnv) (s : State) :
  latched s = true -> latched (state (loop e s)) = true.
Proof.
  unfold latched. rewrite loop_session, loop_sent.
  unfold session_after, sent_after, attempts_connect.
  destruct (session s), (mqttDiscoverySent s), (is_connected (status_loop e)),
    (alive_loop e), (is_connected (status_reconnect e)),
    (connect_code e =? 0), (alive_pump e), (publish_due e s),
    (alive_publish e); simpl; intro H; try reflexivity; discriminate H.
Qed.

(** Extra X9.  An invariant of the loop: whenever a session is live, the
    discovery latch is set.  It holds at boot and after every iteration of
    any run, so on a live session the discovery round has always been
    run, and is not run again. *)
Theorem live_session_is_latched (envs : list LoopEnv) (s : State) :
  latched s = true ->
  latched (fst (run envs s)) = true.
Proof.
  revert s. induction envs as [|e envs IH]; intros s H; [exact H|].
  rewrite run_cons. cbn [fst]. apply IH, loop_keeps_latched, H.
Qed.

Lemma live_session_is_latched_witness :
  latched (fst (run [rejecting 5000; after_wrap; offline 5100] boot_state))
  = true.
Proof.
  apply (live_session_is_latched [rejecting 5000; after_wrap; offline 5100]
                                 boot_state).
  reflexivity.
Defined.

(** Extra X10.  The discovery latch makes [publishDiscovery] idempotent: after a
    call the latch is set, and a second call does nothing at all.  The
    first call hands the round to the client only when the latch was clear
    and a session is live; the client sends none of it, and the latch is
    set all the same. *)
Theorem publishDiscovery_latch (s : State) :
  mqttDiscoverySent (state (publishDiscovery s)) = true
  /\ publishDiscovery (state (publishDiscovery s))
     = (tt, state (publishDiscovery s), [])
  /\ handed_over (trace (publishDiscovery s))
     = (if negb (mqttDiscoverySent s) && session s then discovery_round
        else [])
  /\ refused (trace (publishDiscovery s))
     = (if negb (mqttDiscoverySent s) && session s then discovery_round
        else [])
  /\ publishes (trace (publishDiscovery s)) = [].
Proof.
  unfold discovery_round.
  destruct discovery_payloads_fit as (Ht & Hh & Hp).
  rewrite <- Ht, <- Hh, <- Hp.
  destruct s as [h t p ot bt mt wt [|] rr [|]];
    (split; [|split; [|split; [|split]]]); reflexivity.
Qed.

(** ** NaN through the arithmetic *)

Lemma shr_1_nonneg (mrs : shr_record) :
  0 <= shr_m mrs -> 0 <= shr_m (shr_1 mrs).
Proof.
  destruct mrs as [m r s']. simpl.
  destruct m as [|p|p]; [simpl; lia| |lia].
  intros _. destruct p; simpl; lia.
Qed.

Lemma iter_shr_1_nonneg (p : positive) (mrs : shr_record) :
  0 <= shr_m mrs -> 0 <= shr_m (iter_pos shr_1 p mrs).
Proof.
  revert mrs. induction p as [p IH|p IH|]; intros mrs H; simpl.
  - apply IH, IH, shr_1_nonneg, H.
  - apply IH, IH, H.
  - apply shr_1_nonneg, H.
Qed.

Lemma shr_fexp_nonneg (prec emax m e : Z) (l : location) :
  0 <= m -> 0 <= shr_m (fst (shr_fexp prec emax m e l)).
Proof.
  intro H. unfold shr_fexp, shr.
  assert (H0 : 0 <= shr_m (shr_record_of_loc m l))
    by (destruct l as [|[| |]]; exact H).
  destruct (fexp prec emax (Zdigits2 m + e) - e) as [|p|p]; simpl;
    try exact H0.
  apply iter_shr_1_nonneg, H0.
Qed.

Lemma round_nearest_even_nonneg (m : Z) (l : location) :
  0 <= m -> 0 <= round_nearest_even m l.
Proof.
  intro H. destruct l as [|[| |]]; simpl; try lia.
  destruct (Z.even m); lia.
Qed.

(** Rounding a non-negative mantissa never gives NaN. *)
Lemma binary_round_aux_not_nan (prec emax : Z) (sx : bool) (mx ex : Z)
    (lx : location) :
  0 <= mx -> isnan (binary_round_aux prec emax sx mx ex lx) = false.
Proof.
  intro H. unfold binary_round_aux.
  pose proof (shr_fexp_nonneg prec emax mx ex lx H) as H1.
  destruct (shr_fexp prec emax mx ex lx) as [mrs' e']. simpl in H1.
  pose proof (shr_fexp_nonneg prec emax
                (round_nearest_even (shr_m mrs') (loc_of_shr_record mrs'))
                e' loc_Exact
                (round_nearest_even_nonneg _ _ H1)) as H2.
  destruct (shr_fexp prec emax _ e' loc_Exact) as [mrs'' e'']. simpl in H2.
  destruct (shr_m mrs'') as [|p|p]; [reflexivity| |lia].
  destruct (e'' <=? emax - prec); reflexivity.
Qed.

Lemma binary_round_not_nan (prec emax : Z) (s : bool) (m : positive) (e : Z) :
  isnan (binary_round prec emax s m e) = false.
Proof.
  unfold binary_round.
  destruct (shl_align m e (fexp prec emax (Z.pos (digits2_pos m) + e)))
    as [mz ez].
  apply binary_round_aux_not_nan. lia.
Qed.

Lemma SFmul_finite_isnan (prec emax : Z) (x : spec_float) (s : bool)
    (m : positive) (e : Z) :
  isnan (SFmul prec emax x (S754_finite s m e)) = isnan x.
Proof.
  destruct x as [sx|sx| |sx mx ex]; try reflexivity.
  simpl. apply binary_round_aux_not_nan. lia.
Qed.

Lemma SFdiv_finite_isnan (prec emax : Z) (x : spec_float) (s : bool)
    (m : positive) (e : Z) :
  isnan (SFdiv prec emax x (S754_finite s m e)) = isnan x.
Proof.
  destruct x as [sx|sx| |sx mx ex]; try reflexivity.
  unfold SFdiv, SFdiv_core_binary.
  set (e' := Z.min _ _).
  set (m' := match (ex - e - e') with
             | Z.pos _ => Z.shiftl (Z.pos mx) (ex - e - e')
             | 0 => Z.pos mx
             | Z.neg _ => 0
             end).
  assert (Hm' : 0 <= m').
  { subst m'. destruct (ex - e - e') as [|p|p]; try lia.
    apply Z.shiftl_nonneg. lia. }
  pose proof (Z_div_mod m' (Z.pos m) ltac:(lia)) as Hdiv.
  destruct (Z.div_eucl m' (Z.pos m)) as [q r].
  apply binary_round_aux_not_nan.
  destruct Hdiv as [Heq Hr]. nia.
Qed.

Lemma round_isnan (x : spec_float) : isnan (round x) = isnan x.
Proof.
  destruct x as [s|s| |s m e]; try reflexivity.
  unfold round. destruct (0 <=? e); [reflexivity|].
  set (d := 2 ^ (- e)).
  set (n := if d <=? 2 * (Z.pos m mod d) then Z.pos m / d + 1
            else Z.pos m / d).
  destruct (n =? 0); [reflexivity|].
  unfold binary_normalize.
  destruct (if s then - n else n) as [|p|p]; try reflexivity;
    apply binary_round_not_nan.
Qed.

Lemma of_float_isnan (x : spec_float) : isnan (F64.of_float x) = isnan x.
Proof.
  destruct x as [s|s| |s m e]; try reflexivity.
  apply binary_round_not_nan.
Qed.

Lemma tenths_isnan (x : spec_float) : isnan (tenths x) = isnan x.
Proof.
  unfold tenths, F64.div, F32.mul.
  change (F64.of_Z 10) with (S754_finite false 5629499534213120 (-49)).
  change (F32.of_Z 10) with (S754_finite false 10485760 (-20)).
  rewrite SFdiv_finite_isnan, round_isnan, of_float_isnan, SFmul_finite_isnan.
  reflexivity.
Qed.

Lemma hecto_isnan (x : spec_float) :
  isnan (F32.div x (F32.of_Z 100)) = isnan x.
Proof.
  unfold F32.div.
  change (F32.of_Z 100) with (S754_finite false 13107200 (-17)).
  apply SFdiv_finite_isnan.
Qed.

(** Extra X18.  Unit conversion and rounding neither make nor hide a NaN.  A
    channel of the cell is NaN after [readBME] exactly when the sensor
    returned NaN for it (also the pressure, which is divided by 100), and
    the value [round(x * 10) / 10.0] put into the state document is NaN
    exactly when the channel is; a NaN channel is then written as null. *)
Theorem nan_neither_made_nor_hidden (e : LoopEnv) (s : State)
    (x : spec_float) :
  isnan (humid (state (readBME e s))) = isnan (readHumidity e)
  /\ isnan (tempC (state (readBME e s))) = isnan (readTemperature e)
  /\ isnan (pressure (state (readBME e s))) = isnan (readPressure e)
  /\ isnan (tenths x) = isnan x
  /\ (isnan x = true -> writeFloat (tenths x) = "null").
Proof.
  split; [|split; [|split; [|split]]].
  - destruct s. reflexivity.
  - destruct s. reflexivity.
  - destruct s. cbv [readBME bme_read bind modify set_humid set_tempC
                     set_pressure set_reading value state trace fst snd
                     humid tempC pressure].
    apply hecto_isnan.
  - apply tenths_isnan.
  - destruct x; try discriminate. intros _. reflexivity.
Qed.

(** Extra X5.  The runtime loop always starts from scratch.  Whatever happened
    during [setup] (no reset asked, reset turned down, reset done, a
    peripheral missing), it ends without session and with the discovery
    latch, the reading cell and all four deadlines as the boot left them. *)
Theorem setup_ends_without_session (b : BootEnv) :
  session (state (setup b boot_state)) = false
  /\ mqttDiscoverySent (state (setup b boot_state)) = false
  /\ timers (state (setup b boot_state)) = timers boot_state.
Proof.
  split; [|split; [|apply setup_keeps_timers]].
  - unfold boot_state. run_setup b; reflexivity.
  - unfold boot_state. run_setup b; reflexivity.
Qed.

(** ** The client's buffer *)

Lemma before_sizing_preparing (a b : list Event) :
  forallb preparing a = true ->
  publish_calls (before_sizing (a ++ b)) = publish_calls (before_sizing b).
Proof.
  induction a as [|ev a IH]; [reflexivity|].
  simpl. intro H. apply andb_prop in H as [Hev Ha].
  destruct ev; try discriminate Hev; simpl; apply IH, Ha.
Qed.

Lemma sizes_first_bind {A B} (m : M A) (k : A -> M B) :
  always preparing m -> (forall a, sizes_first (k a)) ->
  sizes_first (bind m k).
Proof.
  intros Hm Hk s. rewrite trace_bind, before_sizing_preparing by apply Hm.
  apply Hk.
Qed.

Lemma sizes_first_sizing {B} (n : Z) (k : unit -> M B) :
  sizes_first (bind (emit (EvSetBufferSize n)) k).
Proof. intro s. reflexivity. Qed.

Lemma sizes_first_ret {A} (a : A) : sizes_first (ret a).
Proof. intro s. reflexivity. Qed.

Ltac sizing_step :=
  lazymatch goal with
  | |- sizes_first (bind (emit (EvSetBufferSize _)) _) =>
      apply sizes_first_sizing
  | |- sizes_first (bind _ _) =>
      apply sizes_first_bind; [unfold_program; repeat always_step|intro]
  | |- sizes_first (ret _) => apply sizes_first_ret
  | |- sizes_first (if ?c then _ else _) => destruct c
  end.

Lemma sizings_app (a b : list Event) :
  sizings (a ++ b) = (sizings a ++ sizings b)%list.
Proof. apply flat_map_app. Qed.

Lemma sizings_preparing (tr : list Event) :
  forallb preparing tr = true -> sizings tr = [].
Proof.
  induction tr as [|ev tr IH]; [reflexivity|].
  simpl. intro H. apply andb_prop in H as [Hev Htr].
  destruct ev; try discriminate Hev; simpl; apply IH, Htr.
Qed.

Lemma sizings_idle (tr : list Event) :
  forallb is_idle tr = true -> sizings tr = [].
Proof.
  induction tr as [|ev tr IH]; [reflexivity|].
  simpl. destruct ev; simpl; try discriminate; exact IH.
Qed.

Lemma sizings_runtime (tr : list Event) :
  forallb runtime_event tr = true -> sizings tr = [].
Proof.
  induction tr as [|ev tr IH]; [reflexivity|].
  simpl. intro H. apply andb_prop in H as [Hev Htr].
  destruct ev; try discriminate Hev; simpl; apply IH, Htr.
Qed.

(** Extra X19.  The client's buffer is sized before it is used, and only
    then: [setup] makes no publish call before [setBufferSize], it sizes
    the buffer at most once and to 512 bytes, and no run of the loop sizes
    it again.  So every publish of the program meets a buffer of 512
    bytes. *)
Theorem buffer_sized_before_use (b : BootEnv) (envs : list LoopEnv)
    (s s' : State) :
  publish_calls (before_sizing (trace (setup b s))) = []
  /\ (sizings (trace (setup b s)) = [512]
      \/ sizings (trace (setup b s)) = []
         /\ publish_calls (trace (setup b s)) = []
         /\ value (setup b s) = Halted)
  /\ sizings (snd (run envs s')) = [].
Proof.
  split; [|split].
  - revert s. change (sizes_first (setup b)).
    unfold setup. repeat sizing_step.
  - destruct s as [h t p ot bt mt wt sent [|] ses]; run_setup b.
    all: first
      [ right; repeat split; reflexivity
      | left; rewrite ?sizings_app;
        match goal with
        | H : forallb is_idle ?l = true |- _ => rewrite (sizings_idle l H)
        end; reflexivity ].
  - apply sizings_runtime, always_run, loop_runtime_only.
Qed.
